(** * A markdown editor on Electron: the file bridge between windows and the main process

    The development follows the source files of the editor:
    - [Path]      the two string functions the editor borrows from its platform
                  ([path.basename] of Node and the regular expression of the export name);
    - [Ipc]       the messages that the preload script carries in both directions
                  (src/preload.js);
    - [Renderer]  the state and the handlers of the React component [App] (src/App.jsx);
    - [Main]      the main process (main.js): window bookkeeping, the IPC handlers and
                  the completion callbacks of the file operations;
    - [Bridge]    the main process together with the surface of every window.

    Strings are byte strings (UTF-8); windows are object identities. *)

From Stdlib Require Import Ascii String.
From stdpp Require Import gmap strings list fin_maps.

Local Open Scope string_scope.

(** The double quote that the status messages put around a file name. *)
Definition dquote : string := String (ascii_of_nat 34) EmptyString.

(** JavaScript truthiness of a value that is a string, [null] or [undefined]:
    only a non-empty string passes an [if]. *)
Definition truthy (v : option string) : bool :=
  match v with
  | Some (String _ _) => true
  | _ => false
  end.

(** [String.prototype.includes]: the needle occurs at some position. *)
Fixpoint includes (needle s : string) : bool :=
  String.prefix needle s ||
  match s with
  | EmptyString => false
  | String _ s' => includes needle s'
  end.

(** ** Platform string functions *)
Module Path.

Definition sep : ascii := "/"%char.

(** The backwards scan of [path.posix.basename(path)]: [cs] holds the characters
    from the last one to the first, [matchedSlash] is true until the first
    character that is not a separator has been seen, and [acc] is the slice
    found so far.  The scan stops at the first separator after the slice. *)
Fixpoint scan (cs : list ascii) (matchedSlash : bool) (acc : list ascii) : list ascii :=
  match cs with
  | [] => acc
  | c :: rest =>
      if Ascii.eqb c sep then
        if matchedSlash then scan rest matchedSlash acc else acc
      else scan rest false (c :: acc)
  end.

Definition basename (path : string) : string :=
  string_of_list_ascii (scan (rev (list_ascii_of_string path)) true []).

(** Case folding of a regular expression with the [i] flag and without the [u]
    flag: a character is compared through its upper-case form, and only the
    ASCII letters have one among the bytes. *)
Definition canonicalize (c : ascii) : ascii :=
  let n := nat_of_ascii c in
  if (97 <=? n)%nat && (n <=? 122)%nat then ascii_of_nat (n - 32) else c.

Fixpoint canon (s : string) : string :=
  match s with
  | EmptyString => EmptyString
  | String c s' => String (canonicalize c) (canon s')
  end.

(** [s] as a whole matches [\.(md|markdown)$] anchored at its first character. *)
Definition md_suffix_here (s : string) : bool :=
  String.eqb (canon s) ".MD" || String.eqb (canon s) ".MARKDOWN".

(** [s.replace(/\.(md|markdown)$/i, '')]: the leftmost position at which the
    pattern matches is removed up to the end of the string; without a match the
    string is returned as it is. *)
Fixpoint strip_md_suffix (s : string) : string :=
  if md_suffix_here s then EmptyString
  else match s with
       | EmptyString => EmptyString
       | String c s' => String c (strip_md_suffix s')
       end.

(** The ASCII lower-case form of a string, by which the statements below compare
    a suffix with [.md] and [.markdown]. *)
Definition lower (c : ascii) : ascii :=
  let n := nat_of_ascii c in
  if (65 <=? n)%nat && (n <=? 90)%nat then ascii_of_nat (n + 32) else c.

Fixpoint lowercase (s : string) : string :=
  match s with
  | EmptyString => EmptyString
  | String c s' => String (lower c) (lowercase s')
  end.

(** A path segment: not empty and free of separators. *)
Definition segment (name : string) : Prop :=
  name ≠ "" ∧ Forall (fun c => c ≠ sep) (list_ascii_of_string name).

End Path.

(** ** The messages of the bridge (preload.js) *)
Module Ipc.

(** Requests of a rendering surface, one constructor per function that the
    preload script exposes under [electronAPI]. *)
Inductive Request : Type :=
| NewWindowRequest
| OpenFileDialog
| SaveFileRequest (content defaultFileName : string)
| OverwriteFileRequest (content fullPath : string)
| UpdateWindowTitle (title : string).

(** Messages of the main process to one rendering surface.  The main process
    sends [save-status] in two shapes only, with the message alone or with the
    message, the full path and the display name; [saved] holds the last two. *)
Inductive Incoming : Type :=
| FileContentReady (content displayFileName fullPath : string)
| SaveStatus (status : string) (saved : option (string * string))
| MenuOpenFile
| MenuSaveFile
| MenuExportHtml.

Definition channel (m : Incoming) : string :=
  match m with
  | FileContentReady _ _ _ => "file-content-ready"
  | SaveStatus _ _ => "save-status"
  | MenuOpenFile => "menu-open-file"
  | MenuSaveFile => "menu-save-file"
  | MenuExportHtml => "menu-export-html"
  end.

Definition requestChannel (r : Request) : string :=
  match r with
  | NewWindowRequest => "new-window-request"
  | OpenFileDialog => "open-file-dialog"
  | SaveFileRequest _ _ => "save-file-request"
  | OverwriteFileRequest _ _ => "overwrite-file-request"
  | UpdateWindowTitle _ => "update-window-title"
  end.

End Ipc.

(** ** The rendering surface (src/App.jsx) *)
Module Renderer.
Import Ipc.

Definition defaultMarkdown : string :=
"# Welcome to the Secure Markdown Editor
    ---
    This is an **Electron + React** app using a secure IPC bridge.

    ### Multi-Window Ready!
    * Click '➕ New Window' below or use the Window menu to open another isolated editor.
    * File operations (Open/Save) are now completely separate for each window.

    ```javascript
    // Example code block
    const greet = (name) => {
        return `Hello, ${name}!`;
    };
    ```
    ".

(** The state variables of the component [App]. *)
Record App : Type := mkApp {
  markedText : string;
  htmlMarkup : string;
  fileName : option string;        (* full path, [None] is null *)
  displayFileName : string;
  saveStatus : option string
}.

Definition setMarkedText (v : string) (a : App) : App :=
  mkApp v (htmlMarkup a) (fileName a) (displayFileName a) (saveStatus a).
Definition setHtmlMarkup (v : string) (a : App) : App :=
  mkApp (markedText a) v (fileName a) (displayFileName a) (saveStatus a).
Definition setFileName (v : option string) (a : App) : App :=
  mkApp (markedText a) (htmlMarkup a) v (displayFileName a) (saveStatus a).
Definition setDisplayFileName (v : string) (a : App) : App :=
  mkApp (markedText a) (htmlMarkup a) (fileName a) v (saveStatus a).
Definition setSaveStatus (v : option string) (a : App) : App :=
  mkApp (markedText a) (htmlMarkup a) (fileName a) (displayFileName a) v.

(** The values of [useState] at the first render. *)
Definition initial : App :=
  mkApp defaultMarkdown "" None "Untitled.md" None.

(** *** Outgoing functions *)

Definition openFileDialog (a : App) : App * list Request :=
  (setSaveStatus (Some "Opening file dialog...") a, [OpenFileDialog]).

Definition saveFileDialog (a : App) : App * list Request :=
  let a' := setSaveStatus (Some "Saving...") a in
  if truthy (fileName a) then
    match fileName a with
    | Some path => (a', [OverwriteFileRequest (markedText a) path])
    | None => (a', [])
    end
  else (a', [SaveFileRequest (markedText a) (displayFileName a)]).

Definition defaultExportName (displayFileName : string) : string :=
  Path.strip_md_suffix displayFileName +:+ ".html".

Definition exportHtmlDialog (a : App) : App * list Request :=
  (setSaveStatus (Some "Exporting HTML...") a,
   [SaveFileRequest (htmlMarkup a) (defaultExportName (displayFileName a))]).

Definition handleNewWindow (a : App) : App * list Request :=
  (setSaveStatus (Some "Opening new editor window...") a, [NewWindowRequest]).

(** *** Incoming listeners *)

Definition handleFileContent (content receivedDisplayFileName fullPath : string)
    (a : App) : App :=
  setSaveStatus (Some ("File " +:+ dquote +:+ receivedDisplayFileName +:+ dquote +:+ " loaded."))
    (setDisplayFileName receivedDisplayFileName
      (setFileName (Some fullPath)
        (setMarkedText content a))).

Definition handleSaveStatus (status : string) (saved : option (string * string))
    (a : App) : App :=
  let a' := setSaveStatus (Some status) a in
  match saved with
  | Some (receivedFullPath, receivedDisplayFileName) =>
      if truthy (Some receivedFullPath) then
        setDisplayFileName receivedDisplayFileName (setFileName (Some receivedFullPath) a')
      else a'
  | None => a'
  end.

Definition clearEditor (a : App) : App :=
  setSaveStatus (Some "Editor reset.")
    (setDisplayFileName "Untitled.md"
      (setFileName None
        (setMarkedText defaultMarkdown a))).

(** The five buttons are disabled while this holds. *)
Definition isSaving (saveStatus : option string) : bool :=
  truthy saveStatus && includes "Saving..." (default "" saveStatus).

(** A click on a button runs its handler unless the button is disabled. *)
Definition onClick (handler : App → App * list Request) (a : App) : App * list Request :=
  if isSaving (saveStatus a) then (a, []) else handler a.

(** The timer that a shown status starts: when it fires, the status is cleared.
    Without a status there is no timer. *)
Definition statusTimer (a : App) : App :=
  if truthy (saveStatus a) then setSaveStatus None a else a.

(** What the user, the main process or the clock does to one rendering surface.
    The clock is not measured: the timer of a status may fire at any moment. *)
Inductive Action : Type :=
| ClickNewWindow
| ClickOpen
| ClickSave
| ClickExport
| ClickNewDocument
| Typing (text : string)
| Receive (m : Incoming)
| StatusTimeout.

Definition handle (act : Action) (a : App) : App * list Request :=
  match act with
  | ClickNewWindow => onClick handleNewWindow a
  | ClickOpen => onClick openFileDialog a
  | ClickSave => onClick saveFileDialog a
  | ClickExport => onClick exportHtmlDialog a
  | ClickNewDocument => onClick (fun a => (clearEditor a, [])) a
  | StatusTimeout => (statusTimer a, [])
  | Typing text => (setMarkedText text a, [])
  | Receive (FileContentReady content name path) => (handleFileContent content name path a, [])
  | Receive (SaveStatus status saved) => (handleSaveStatus status saved a, [])
  | Receive MenuOpenFile => openFileDialog a
  | Receive MenuSaveFile => saveFileDialog a
  | Receive MenuExportHtml => exportHtmlDialog a
  end.

(** The actions that leave the surface's record of the path alone: all but the
    arrival of an opened file, the arrival of a status with a path (the end of a
    save-as) and New Document. *)
Definition keepsPath (act : Action) : bool :=
  match act with
  | ClickNewDocument => false
  | Receive (FileContentReady _ _ _) => false
  | Receive (SaveStatus _ (Some _)) => false
  | _ => true
  end.

Section Effects.
(** [marked.parse] of the markdown library. *)
Variable marked_parse : string -> string.

Definition windowTitle (a : App) : string :=
  displayFileName a +:+ " - Markdown Editor".

(** The effects that React runs after a render whose dependencies changed:
    the window title follows [displayFileName], the preview follows
    [markedText].  The effect that starts the timer of the status line is the
    action [StatusTimeout]. *)
Definition effects (before after : App) : App * list Request :=
  (if decide (markedText before = markedText after) then after
   else setHtmlMarkup (marked_parse (markedText after)) after,
   if decide (displayFileName before = displayFileName after) then []
   else [UpdateWindowTitle (windowTitle after)]).

(** The first render runs every effect. *)
Definition mount : App * list Request :=
  (setHtmlMarkup (marked_parse (markedText initial)) initial,
   [UpdateWindowTitle (windowTitle initial)]).

Definition step (act : Action) (a : App) : App * list Request :=
  let '(a1, out1) := handle act a in
  let '(a2, out2) := effects a a1 in
  (a2, (out1 ++ out2)%list).

Fixpoint run (acts : list Action) (a : App) : App * list Request :=
  match acts with
  | [] => (a, [])
  | act :: rest =>
      let '(a1, out1) := step act a in
      let '(a2, out2) := run rest a1 in
      (a2, (out1 ++ out2)%list)
  end.

(** The states of a rendering surface from its first render on. *)
Inductive reachable : App → Prop :=
| reachable_mount : reachable (fst mount)
| reachable_step a act : reachable a → reachable (fst (step act a)).

End Effects.

End Renderer.

(** ** The main process (main.js) *)
Module Main.
Import Ipc.

(** A window is the identity of a [BrowserWindow] object.  Every window owns one
    [webContents], which is identified with its owner. *)
Abbreviation Window := positive (only parsing).
Abbreviation WebContents := positive (only parsing).

Definition webContents (w : Window) : WebContents := w.

Record Error : Type := mkError { message : string }.

(** What the main process does to the outside world, in program order. *)
Inductive Effect : Type :=
| LoadURL (w : Window) (url : string)
| ShowOpenDialogSync (w : Window)
| ShowSaveDialogSync (w : Window) (defaultPath : string)
| ReadFile (filePath : string)
| WriteFile (filePath content : string)
| Send (w : Window) (m : Incoming)
| SetTitle (w : Window) (title : string)
| ConsoleError (what : string) (err : Error)
| Uncaught (error : string).

(** The closures handed to [fs.readFile] and [fs.writeFile], with the variables
    they capture. *)
Inductive Callback : Type :=
| OpenFileDone (window : Window) (filePath : string)
| SaveFileDone (window : Window) (filePath : string)
| OverwriteDone (window : Window) (fullPath : string).

Definition callbackWindow (k : Callback) : Window :=
  match k with
  | OpenFileDone w _ | SaveFileDone w _ | OverwriteDone w _ => w
  end.

(** The two module-level collections of main.js, followed by the part of the
    platform that the handlers consult: the windows that Electron still has
    ([BrowserWindow.getAllWindows()]), the numeric id Electron gave each window,
    the next object identity, the file operations in flight, and whether the
    callback of [app.whenReady()] has run, which sets the menu and registers the
    [activate] listener.

    [windowFilePaths] is a [WeakMap]: the program adds entries and never deletes
    one.  The map below holds every entry that was added; that the collector
    drops the entry of a key which nothing refers to any more is not modelled. *)
Record State : Type := mkState {
  openWindows : gset Window;
  windowFilePaths : gmap Window string;
  allWindows : gset Window;
  windowId : gmap Window nat;
  nextObject : Window;
  pending : list Callback;
  isReady : bool
}.

Definition initial : State := mkState ∅ ∅ ∅ ∅ 1%positive [] false.

(** [BrowserWindow.fromWebContents]: the owner, or null once it is destroyed. *)
Definition fromWebContents (s : State) (sender : WebContents) : option Window :=
  if decide (sender ∈ allWindows s) then Some sender else None.

(** *** State and effect monad *)

Definition M (A : Type) : Type := State → A * State * list Effect.

Definition ret {A} (a : A) : M A := fun s => (a, s, []).

Definition bind {A B} (k : A → M B) (m : M A) : M B := fun s =>
  let '(a, s1, e1) := m s in
  let '(b, s2, e2) := k a s1 in
  (b, s2, (e1 ++ e2)%list).

#[global] Instance M_ret : MRet M := @ret.
#[global] Instance M_bind : MBind M := @bind.

Definition emit (e : Effect) : M unit := fun s => (tt, s, [e]).
Definition modify (f : State → State) : M unit := fun s => (tt, f s, []).

Definition stateOf {A} (r : A * State * list Effect) : State := snd (fst r).
Definition effectsOf {A} (r : A * State * list Effect) : list Effect := snd r.

(** *** Primitive updates *)

Definition openWindows_add (w : Window) (s : State) : State :=
  mkState ({[w]} ∪ openWindows s) (windowFilePaths s) (allWindows s) (windowId s)
          (nextObject s) (pending s) (isReady s).
Definition openWindows_delete (w : Window) (s : State) : State :=
  mkState (openWindows s ∖ {[w]}) (windowFilePaths s) (allWindows s) (windowId s)
          (nextObject s) (pending s) (isReady s).
Definition windowFilePaths_set (w : Window) (p : string) (s : State) : State :=
  mkState (openWindows s) (<[w:=p]> (windowFilePaths s)) (allWindows s) (windowId s)
          (nextObject s) (pending s) (isReady s).
Definition defer (k : Callback) (s : State) : State :=
  mkState (openWindows s) (windowFilePaths s) (allWindows s) (windowId s)
          (nextObject s) (pending s ++ [k])%list (isReady s).
Definition undefer (i : nat) (s : State) : State :=
  mkState (openWindows s) (windowFilePaths s) (allWindows s) (windowId s)
          (nextObject s) (take i (pending s) ++ drop (S i) (pending s))%list (isReady s).

Definition setReady (s : State) : State :=
  mkState (openWindows s) (windowFilePaths s) (allWindows s) (windowId s)
          (nextObject s) (pending s) true.

(** The error of a use of a window that the platform has destroyed. *)
Definition destroyed : string := "TypeError: Object has been destroyed".

(** [window.webContents.send(...)]: the message leaves for the surface of a window
    that is alive; on a destroyed window the expression throws, and nothing
    catches the exception. *)
Definition send (window : Window) (m : Incoming) : M unit := fun s =>
  if decide (window ∈ allWindows s) then emit (Send window m) s
  else emit (Uncaught destroyed) s.

(** The construction of a [BrowserWindow]: a new object, which Electron
    registers under the numeric id [id] of its choice.  [createWindow] constructs
    one, and so does Electron itself for a page that calls [window.open]. *)
Definition newBrowserWindow (id : nat) : M Window := fun s =>
  let w := nextObject s in
  (w,
   mkState (openWindows s) (windowFilePaths s) ({[w]} ∪ allWindows s)
           (<[w:=id]> (windowId s)) (Pos.succ w) (pending s) (isReady s),
   []).

(** The platform destroys a window before it emits [closed]. *)
Definition destroy (w : Window) (s : State) : State :=
  mkState (openWindows s) (windowFilePaths s) (allWindows s ∖ {[w]})
          (delete w (windowId s)) (nextObject s) (pending s) (isReady s).

(** *** Window bookkeeping *)

Definition createWindow (id : nat) : M Window :=
  newWindow ← newBrowserWindow id;
  emit (LoadURL newWindow "http://localhost:5173") ;;
  modify (openWindows_add newWindow) ;;
  ret newWindow.

(** The listener that [createWindow] attaches to [closed]. *)
Definition onClosed (newWindow : Window) : M unit :=
  modify (openWindows_delete newWindow).

(** *** File access *)

Definition openFile (window : Window) (filePath : string) : M unit :=
  emit (ReadFile filePath) ;;
  modify (defer (OpenFileDone window filePath)).

Definition openFileDone (window : Window) (filePath : string)
    (err : option Error) (data : string) : M unit :=
  match err with
  | Some e =>
      emit (ConsoleError "Failed to read file:" e) ;;
      send window (SaveStatus ("Error loading file: " +:+ message e) None)
  | None =>
      modify (windowFilePaths_set window filePath) ;;
      let displayFileName := Path.basename filePath in
      send window (FileContentReady data displayFileName filePath)
  end.

(** [files] is the answer of [dialog.showOpenDialogSync]. *)
Definition getFileFromUser (window : option Window) (files : option (list string))
    : M unit :=
  match window with
  | None => ret tt
  | Some window =>
      emit (ShowOpenDialogSync window) ;;
      match files with
      | Some (file0 :: _) => openFile window file0
      | _ => ret tt
      end
  end.

Definition saveFileDone (window : Window) (filePath : string)
    (err : option Error) : M unit :=
  match err with
  | Some e =>
      emit (ConsoleError "Failed to save file:" e) ;;
      send window (SaveStatus ("Error saving file: " +:+ message e) None)
  | None =>
      modify (windowFilePaths_set window filePath) ;;
      let displayFileName := Path.basename filePath in
      send window
           (SaveStatus ("File successfully saved as " +:+ dquote +:+ displayFileName +:+ dquote)
                       (Some (filePath, displayFileName)))
  end.

(** [filePath] is the answer of [dialog.showSaveDialogSync]. *)
Definition saveFileToUser (window : option Window) (content defaultFileName : string)
    (filePath : option string) : M unit :=
  match window with
  | None => ret tt
  | Some window =>
      emit (ShowSaveDialogSync window defaultFileName) ;;
      if truthy filePath then
        match filePath with
        | Some path =>
            emit (WriteFile path content) ;;
            modify (defer (SaveFileDone window path))
        | None => ret tt
        end
      else send window (SaveStatus "Save As operation cancelled." None)
  end.

Definition overwriteDone (window : Window) (fullPath : string)
    (err : option Error) : M unit :=
  match err with
  | Some e =>
      emit (ConsoleError "Failed to overwrite file:" e) ;;
      send window (SaveStatus ("Error overwriting file: " +:+ message e) None)
  | None =>
      let displayFileName := Path.basename fullPath in
      send window
           (SaveStatus ("File successfully saved to " +:+ dquote +:+ displayFileName +:+ dquote)
                       None)
  end.

Definition overwriteFile (window : option Window) (content fullPath : string) : M unit :=
  match window with
  | None => ret tt
  | Some window =>
      emit (WriteFile fullPath content) ;;
      modify (defer (OverwriteDone window fullPath))
  end.

(** *** IPC handlers *)

(** What the platform answers while one handler runs: the two native dialogs
    and the numeric id of a window created meanwhile. *)
Record Answers : Type := mkAnswers {
  showOpenDialogSync : option (list string);
  showSaveDialogSync : option string;
  freshId : nat
}.

(** The listeners that [initializeIpcHandlers] registers with [ipcMain.on],
    selected by channel. *)
Definition ipcMain_on (env : Answers) (sender : WebContents) (r : Request) : M unit :=
  fun s =>
    match r with
    | OpenFileDialog =>
        getFileFromUser (fromWebContents s sender) (showOpenDialogSync env) s
    | SaveFileRequest content defaultFileName =>
        saveFileToUser (fromWebContents s sender) content defaultFileName
                       (showSaveDialogSync env) s
    | OverwriteFileRequest content fullPath =>
        overwriteFile (fromWebContents s sender) content fullPath s
    | NewWindowRequest =>
        (createWindow (freshId env) ;; ret tt) s
    | UpdateWindowTitle title =>
        match fromWebContents s sender with
        | Some window => emit (SetTitle window title) s
        | None => ret tt s
        end
    end.

(** The completion of a file operation calls the closure it was given. *)
Definition runCallback (k : Callback) (err : option Error) (data : string) : M unit :=
  match k with
  | OpenFileDone window filePath => openFileDone window filePath err data
  | SaveFileDone window filePath => saveFileDone window filePath err
  | OverwriteDone window fullPath => overwriteDone window fullPath err
  end.

(** *** The menu *)

Inductive MenuItem : Type := OpenFileItem | SaveFileItem | ExportHtmlItem.

Definition menuMessage (item : MenuItem) : Incoming :=
  match item with
  | OpenFileItem => MenuOpenFile
  | SaveFileItem => MenuSaveFile
  | ExportHtmlItem => MenuExportHtml
  end.

Definition click (item : MenuItem) (focusedWindow : option Window) : M unit :=
  match focusedWindow with
  | Some w => send w (menuMessage item)
  | None => ret tt
  end.

(** *** The event loop *)

(** The events of the main process.  [Ready] is the resolution of
    [app.whenReady()], which happens once; the menu and the [activate] listener
    exist from then on.  The handlers of [ipcMain] are registered in the same
    callback, after the first window: as a request needs a surface to send it,
    none arrives earlier.  [WindowOpen] is [window.open] in the page of
    [opener]: Electron answers it with a window of its own making, which
    main.js neither loads nor adds to [openWindows]; when such a window is
    closed there is no listener, and the statement of the listener would
    change nothing.  The [window-all-closed] listener, which quits the
    application on platforms other than macOS, ends a run and is no event of
    the loop. *)
Inductive Event : Type :=
| Ready (id : nat)
| Activate (id : nat)
| Message (env : Answers) (sender : WebContents) (r : Request)
| Completed (i : nat) (err : option Error) (data : string)
| Closed (w : Window)
| MenuClick (item : MenuItem) (focusedWindow : option Window)
| WindowOpen (opener : WebContents) (id : nat).

Definition dispatch (ev : Event) : M unit :=
  match ev with
  | Ready id =>
      fun s =>
        if isReady s then ret tt s
        else (createWindow id ;; modify setReady) s
  | Activate id =>
      fun s =>
        if isReady s then
          if decide (size (allWindows s) = 0%nat) then (createWindow id ;; ret tt) s
          else ret tt s
        else ret tt s
  | Message env sender r => ipcMain_on env sender r
  | Completed i err data =>
      fun s =>
        match pending s !! i with
        | Some k => (modify (undefer i) ;; runCallback k err data) s
        | None => ret tt s
        end
  | Closed w => modify (destroy w) ;; onClosed w
  | MenuClick item focusedWindow =>
      fun s => if isReady s then click item focusedWindow s else ret tt s
  | WindowOpen opener id =>
      fun s =>
        match fromWebContents s opener with
        | Some _ => (newBrowserWindow id ;; ret tt) s
        | None => ret tt s
        end
  end.

Definition step (s : State) (ev : Event) : State := stateOf (dispatch ev s).

Inductive reachable : State → Prop :=
| reachable_initial : reachable initial
| reachable_step s ev : reachable s → reachable (step s ev).

(** Runs of the event loop from a given state. *)
Definition run (s : State) (evs : list Event) : State := foldl step s evs.

(** *** Vocabulary of the statements *)

(** The messages among some effects, with their addressees. *)
Definition sends (es : list Effect) : list (Window * Incoming) :=
  omap (fun e => match e with Send w m => Some (w, m) | _ => None end) es.

(** The file operations among some effects. *)
Definition fileOps (es : list Effect) : list Effect :=
  List.filter (fun e => match e with ReadFile _ | WriteFile _ _ => true | _ => false end) es.

(** The closures that a handler started in [s] and finished in [s'] left behind. *)
Definition dispatched (s s' : State) : list Callback :=
  drop (length (pending s)) (pending s').

(** [produces env s sender r w m]: serving the request [r] of [sender] in state [s]
    sends [m] to [w], either while the handler runs or when a file operation that
    the handler started completes, whatever its outcome and whenever it does. *)
Inductive produces (env : Answers) (s : State) (sender : WebContents) (r : Request)
  : Window → Incoming → Prop :=
| produces_now w m :
    (w, m) ∈ sends (effectsOf (ipcMain_on env sender r s)) →
    produces env s sender r w m
| produces_later k err data s' w m :
    k ∈ dispatched s (stateOf (ipcMain_on env sender r s)) →
    (w, m) ∈ sends (effectsOf (runCallback k err data s')) →
    produces env s sender r w m.

(** The state [s] with another registry of paths. *)
Definition withFilePaths (registry : gmap positive string) (s : State) : State :=
  mkState (openWindows s) registry (allWindows s) (windowId s) (nextObject s) (pending s)
          (isReady s).

(** Every object that the program still refers to was allocated before. *)
Definition allocated (s : State) : Prop :=
  (∀ w, w ∈ allWindows s → (w < nextObject s)%positive) ∧
  (∀ w, w ∈ openWindows s → (w < nextObject s)%positive) ∧
  (∀ w, is_Some (windowFilePaths s !! w) → (w < nextObject s)%positive) ∧
  (∀ k, k ∈ pending s → (callbackWindow k < nextObject s)%positive).

End Main.

(** ** Both sides *)
Module Bridge.
Import Ipc.

Section Surfaces.
Variable marked_parse : string → string.

(** The main process and the rendering surface of every window. *)
Record System : Type := mkSystem {
  main : Main.State;
  surfaces : gmap positive Renderer.App
}.

Definition initial : System := mkSystem Main.initial ∅.

(** [loadURL] starts the rendering surface of a window, which mounts [App].  The
    page of a window that the platform made for [window.open] is not followed. *)
Definition load (ss : gmap positive Renderer.App) (e : Main.Effect)
    : gmap positive Renderer.App :=
  match e with
  | Main.LoadURL w _ => <[w := fst (Renderer.mount marked_parse)]> ss
  | _ => ss
  end.

(** An event of the main process, or an action on the surface of one window.  The
    two channels between them are not constrained: any request and any message
    may arrive. *)
Inductive Event : Type :=
| Platform (ev : Main.Event)
| Surface (w : positive) (act : Renderer.Action).

Definition step (sys : System) (e : Event) : System :=
  match e with
  | Platform ev =>
      let r := Main.dispatch ev (main sys) in
      let loaded := foldl load (surfaces sys) (Main.effectsOf r) in
      mkSystem (Main.stateOf r)
               (match ev with
                | Main.Closed w => delete w loaded
                | _ => loaded
                end)
  | Surface w act =>
      match surfaces sys !! w with
      | Some a =>
          mkSystem (main sys) (<[w := fst (Renderer.step marked_parse act a)]> (surfaces sys))
      | None => sys
      end
  end.

Definition run (sys : System) (evs : list Event) : System := foldl step sys evs.

Inductive reachable : System → Prop :=
| reachable_initial : reachable initial
| reachable_step sys e : reachable sys → reachable (step sys e).

End Surfaces.

End Bridge.

(** ** Sample inputs *)
Module Samples.
Import Main.

(** A state with one window, used by the examples: the application is ready and
    window 1 is open. *)
Definition ready : State := run initial [Ready 1].

(** Window 1 was open and has been closed. *)
Definition closed1 : State := run initial [Ready 1; Closed 1%positive].

(** The platform answers that the user picked these files. *)
Definition picks : Answers := mkAnswers (Some ["/home/u/a.md"]) (Some "/home/u/b.md") 2.

(** The platform answers that the user dismissed the dialogs. *)
Definition dismisses : Answers := mkAnswers None None 2.

(** A stand-in for the markdown library in the examples. *)
Definition render (text : string) : string := "<article>" +:+ text +:+ "</article>".

End Samples.

(** ** Outcomes of file operations *)
Module Outcome.
Import Main.

(** The text that a completion callback puts before the message of an error. *)
Definition failureStatus (k : Callback) : string :=
  match k with
  | OpenFileDone _ _ => "Error loading file: "
  | SaveFileDone _ _ => "Error saving file: "
  | OverwriteDone _ _ => "Error overwriting file: "
  end.

(** The line that it logs with the error. *)
Definition failureLog (k : Callback) : string :=
  match k with
  | OpenFileDone _ _ => "Failed to read file:"
  | SaveFileDone _ _ => "Failed to save file:"
  | OverwriteDone _ _ => "Failed to overwrite file:"
  end.

(** The path that a successful completion records for its window, if any. *)
Definition boundPath (k : Callback) : option string :=
  match k with
  | OpenFileDone _ filePath => Some filePath
  | SaveFileDone _ filePath => Some filePath
  | OverwriteDone _ _ => None
  end.

(** The dialogs among some effects. *)
Definition dialogs (es : list Effect) : list Effect :=
  List.filter (fun e => match e with
                        | ShowOpenDialogSync _ | ShowSaveDialogSync _ _ => true
                        | _ => false
                        end) es.

End Outcome.

(** ** What the surface shows (src/App.jsx) *)
Module View.
Import Ipc Renderer.

Definition red : string := "bg-red-100 text-red-800 border-red-300".
Definition green : string := "bg-green-100 text-green-800 border-green-300".
Definition blue : string := "bg-blue-100 text-blue-800 border-blue-300".

(** The style of the status line. *)
Definition statusClass (saveStatus : option string) : string :=
  if truthy saveStatus && includes "Error" (default "" saveStatus) then red
  else if truthy saveStatus && includes "successfully saved" (default "" saveStatus) then green
  else blue.

(** The titles among the requests of a surface, in the order they were sent. *)
Definition titles (out : list Request) : list string :=
  omap (fun r => match r with UpdateWindowTitle t => Some t | _ => None end) out.

End View.

(** ** The listeners of a surface (src/preload.js, src/App.jsx) *)
Module Listeners.
Import Ipc Renderer.

(** A function that [App] hands to [ipcRenderer.on] through the preload script.
    The two menu handlers call [saveFileDialog] and [exportHtmlDialog] of the
    render that registered them, whose state values they hold in [render]. *)
Inductive Listener : Type :=
| HandleFileContent
| HandleSaveStatus
| HandleMenuOpen
| HandleMenuSave (render : App)
| HandleMenuExport (render : App).

(** [ipcRenderer.on] and [ipcRenderer.removeAllListeners] on the table of
    listeners by channel. *)
Definition on (channel : string) (l : Listener) (t : gmap string (list Listener))
    : gmap string (list Listener) :=
  <[channel := (default [] (t !! channel) ++ [l])%list]> t.

Definition removeAllListeners (channel : string) (t : gmap string (list Listener))
    : gmap string (list Listener) :=
  delete channel t.

(** The functions of [electronAPI] that deal with listeners. *)
Definition onFileContentReady := on "file-content-ready".
Definition onSaveStatus := on "save-status".
Definition onMenuOpenFile := on "menu-open-file".
Definition onMenuSaveFile := on "menu-save-file".
Definition onMenuExportHtml := on "menu-export-html".

Definition removeFileListeners (t : gmap string (list Listener))
    : gmap string (list Listener) :=
  removeAllListeners "menu-export-html"
    (removeAllListeners "menu-save-file"
      (removeAllListeners "menu-open-file"
        (removeAllListeners "save-status"
          (removeAllListeners "file-content-ready" t)))).

(** The body of the effect that attaches the listeners, run by the render [a],
    and its cleanup. *)
Definition attach (a : App) (t : gmap string (list Listener)) : gmap string (list Listener) :=
  onMenuExportHtml (HandleMenuExport a)
    (onMenuSaveFile (HandleMenuSave a)
      (onMenuOpenFile HandleMenuOpen
        (onSaveStatus HandleSaveStatus
          (onFileContentReady HandleFileContent t)))).

Definition cleanup (t : gmap string (list Listener)) : gmap string (list Listener) :=
  removeFileListeners t.

(** The dependencies of the effect are the three callbacks; [openFileDialog]
    never changes, [saveFileDialog] changes with the text, the path or the
    display name, and [exportHtmlDialog] with the preview or the display name. *)
Definition sameCallbacks (a b : App) : bool :=
  bool_decide (markedText a = markedText b ∧ fileName a = fileName b ∧
               displayFileName a = displayFileName b ∧ htmlMarkup a = htmlMarkup b).

Definition rerun (before after : App) (t : gmap string (list Listener))
    : gmap string (list Listener) :=
  if sameCallbacks before after then t else attach after (cleanup t).

(** A call of a listener with the arguments of a message.  The state setters act
    on the current state [a]; what a menu handler sends is computed from the
    values of its own render. *)
Definition call (l : Listener) (m : Incoming) (a : App) : App * list Request :=
  match l with
  | HandleFileContent =>
      match m with
      | FileContentReady content name path => (handleFileContent content name path a, [])
      | _ => (a, [])
      end
  | HandleSaveStatus =>
      match m with
      | SaveStatus status saved => (handleSaveStatus status saved a, [])
      | _ => (a, [])
      end
  | HandleMenuOpen => openFileDialog a
  | HandleMenuSave render =>
      (setSaveStatus (Some "Saving...") a, snd (saveFileDialog render))
  | HandleMenuExport render =>
      (setSaveStatus (Some "Exporting HTML...") a, snd (exportHtmlDialog render))
  end.

(** The arrival of a message calls the listeners of its channel in the order
    they were attached. *)
Definition deliver (t : gmap string (list Listener)) (m : Incoming) (a : App)
    : App * list Request :=
  foldl (fun acc l => let '(a2, out2) := call l m (fst acc) in (a2, (snd acc ++ out2)%list))
        (a, []) (default [] (t !! channel m)).

Section Renders.
Variable marked_parse : string → string.

(** The first render attaches the listeners; the preview effect then sets the
    preview, and the render that follows attaches them again. *)
Definition mounted : App * gmap string (list Listener) :=
  let a := fst (mount marked_parse) in
  (a, rerun initial a (attach initial ∅)).

(** One action on a surface with its table of listeners: a message goes through
    the table, a click to its handler; the render that follows runs the effect
    again when a callback changed, and so does the render after the preview
    effect. *)
Definition step (act : Action) (st : App * gmap string (list Listener))
    : (App * gmap string (list Listener)) * list Request :=
  let '(a, t) := st in
  let '(a1, out1) := match act with
                     | Receive m => deliver t m a
                     | _ => handle act a
                     end in
  let '(a2, out2) := effects marked_parse a a1 in
  ((a2, rerun a1 a2 (rerun a a1 t)), (out1 ++ out2)%list).

Inductive reachable : App * gmap string (list Listener) → Prop :=
| reachable_mounted : reachable mounted
| reachable_step st act : reachable st → reachable (fst (step act st)).

End Renders.

(** The render [b] has the values that the callbacks of [a] are made of. *)
Definition agrees (b a : App) : Prop :=
  markedText b = markedText a ∧ fileName b = fileName a ∧
  displayFileName b = displayFileName a ∧ htmlMarkup b = htmlMarkup a.

(** Every channel has the one listener that the render [b] attached. *)
Definition attachedBy (b : App) (t : gmap string (list Listener)) : Prop :=
  t !! "file-content-ready" = Some [HandleFileContent] ∧
  t !! "save-status" = Some [HandleSaveStatus] ∧
  t !! "menu-open-file" = Some [HandleMenuOpen] ∧
  t !! "menu-save-file" = Some [HandleMenuSave b] ∧
  t !! "menu-export-html" = Some [HandleMenuExport b].

Definition detached (t : gmap string (list Listener)) : Prop :=
  t !! "file-content-ready" = None ∧ t !! "save-status" = None ∧
  t !! "menu-open-file" = None ∧ t !! "menu-save-file" = None ∧
  t !! "menu-export-html" = None.

(** The button that does what a menu item asks for. *)
Definition button (item : Main.MenuItem) : Action :=
  match item with
  | Main.OpenFileItem => ClickOpen
  | Main.SaveFileItem => ClickSave
  | Main.ExportHtmlItem => ClickExport
  end.

End Listeners.

(** * Properties *)

(** Some effects that compute to a list hold no file operation. *)
Ltac no_file_op :=
  match goal with
  | Hin : _ ∈ _, Hkind : _ ∨ _ |- _ =>
      apply list_elem_of_In in Hin; simpl in Hin;
      destruct Hkind as [[? ->]|(? & ? & ->)]; intuition congruence
  end.

(** Membership in a list that computes to its elements. *)
Ltac member :=
  intros;
  match goal with
  | H : _ ∈ _ |- _ =>
      apply list_elem_of_In in H; simpl in H;
      intuition (subst; simpl; congruence)
  end.

(** The same for the messages among some effects, of which there is at most
    one. *)
Ltac one_message :=
  match goal with
  | H : _ ∈ _ |- _ =>
      apply list_elem_of_In in H; simpl in H;
      repeat (destruct H as [H|H]); try contradiction;
      try (injection H as _ <-); done
  end.

(** ** JavaScript values *)

Lemma truthy_Some (v : option string) :
  truthy v = true ↔ ∃ s, v = Some s ∧ s ≠ "".
Proof.
  split.
  - destruct v as [[|c s]|]; simpl; intros H; try discriminate.
    exists (String c s). split; [reflexivity | discriminate].
  - intros (s & -> & Hs). destruct s; [contradiction | reflexivity].
Qed.

(** ** The string functions *)

Example basename_abs : Path.basename "/home/u/a.md" = "a.md".
Proof. reflexivity. Qed.
Example basename_trailing : Path.basename "/home/u/docs//" = "docs".
Proof. reflexivity. Qed.
Example basename_root : Path.basename "/" = "".
Proof. reflexivity. Qed.
Example basename_plain : Path.basename "a.md" = "a.md".
Proof. reflexivity. Qed.
Example strip_report : Path.strip_md_suffix "report.md" = "report".
Proof. reflexivity. Qed.
Example strip_notes : Path.strip_md_suffix "Notes.MARKDOWN" = "Notes".
Proof. reflexivity. Qed.
Example strip_txt : Path.strip_md_suffix "todo.txt" = "todo.txt".
Proof. reflexivity. Qed.
Example strip_inner : Path.strip_md_suffix "a.md.bak" = "a.md.bak".
Proof. reflexivity. Qed.
Example export_report : Renderer.defaultExportName "report.md" = "report.html".
Proof. reflexivity. Qed.
Example export_notes : Renderer.defaultExportName "Notes.MARKDOWN" = "Notes.html".
Proof. reflexivity. Qed.

Section PathFacts.
Import Path.

Lemma list_ascii_of_string_app (a b : string) :
  list_ascii_of_string (a +:+ b) = (list_ascii_of_string a ++ list_ascii_of_string b)%list.
Proof. induction a as [|c a IH]; simpl; [reflexivity | by rewrite IH]. Qed.

Lemma scan_segment (l rest acc : list ascii) :
  Forall (fun c => c ≠ sep) l →
  scan (l ++ sep :: rest) false acc = (rev l ++ acc)%list.
Proof.
  revert acc. induction l as [|c l IH]; intros acc Hl; simpl.
  - reflexivity.
  - inversion Hl as [|? ? Hc Hl']; subst.
    destruct (Ascii.eqb_spec c sep) as [->|_]; [contradiction|].
    rewrite IH by assumption. by rewrite <- app_assoc.
Qed.

Lemma scan_first (c : ascii) (l : list ascii) (acc : list ascii) :
  c ≠ sep → scan (c :: l) true acc = scan l false (c :: acc).
Proof. intros Hc. simpl. by destruct (Ascii.eqb_spec c sep). Qed.

(** [basename] returns the final segment of a path. *)
Lemma basename_final_segment (dir name : string) :
  segment name → basename (dir +:+ "/" +:+ name) = name.
Proof.
  intros [Hne Hfree]. unfold basename.
  rewrite !list_ascii_of_string_app, !rev_app_distr. simpl.
  rewrite <- (string_of_list_ascii_of_string name) at 2.
  f_equal.
  assert (Hrev : Forall (fun c => c ≠ sep) (rev (list_ascii_of_string name))).
  { by apply Forall_rev. }
  assert (Hnil : rev (list_ascii_of_string name) ≠ []).
  { intros Hr. apply (f_equal (@rev ascii)) in Hr. rewrite rev_involutive in Hr.
    destruct name; [contradiction | discriminate Hr]. }
  destruct (rev (list_ascii_of_string name)) as [|c l] eqn:E; [contradiction|].
  inversion Hrev as [|? ? Hc Hl]; subst.
  rewrite <- app_assoc. simpl.
  change (scan (c :: (l ++ sep :: rev (list_ascii_of_string dir))%list) true [] =
          list_ascii_of_string name).
  rewrite scan_first by assumption.
  rewrite scan_segment by assumption.
  rewrite <- (rev_involutive (list_ascii_of_string name)), E. reflexivity.
Qed.

Lemma canon_app (a b : string) : canon (a +:+ b) = canon a +:+ canon b.
Proof. induction a as [|c a IH]; simpl; [reflexivity | by rewrite IH]. Qed.

Lemma canon_length (a : string) : String.length (canon a) = String.length a.
Proof. induction a as [|c a IH]; simpl; [reflexivity | by rewrite IH]. Qed.

Lemma string_app_length (a b : string) :
  String.length (a +:+ b) = (String.length a + String.length b)%nat.
Proof. induction a as [|c a IH]; simpl; [reflexivity | by rewrite IH]. Qed.

Lemma md_suffix_here_canon (s : string) :
  md_suffix_here s = true ↔ canon s = ".MD" ∨ canon s = ".MARKDOWN".
Proof.
  unfold md_suffix_here. rewrite orb_true_iff, !String.eqb_eq. reflexivity.
Qed.

(** The pattern cannot match at two positions: a proper extension of a matching
    suffix does not match. *)
Lemma md_suffix_unique (x ext : string) :
  x ≠ "" → md_suffix_here ext = true → md_suffix_here (x +:+ ext) = false.
Proof.
  intros Hx Hext. apply md_suffix_here_canon in Hext.
  apply not_true_is_false. intros H. apply md_suffix_here_canon in H.
  rewrite canon_app in H.
  assert (Hlen : (0 < String.length (canon x))%nat).
  { rewrite canon_length. destruct x; [contradiction | simpl; lia]. }
  destruct Hext as [E|E]; rewrite E in H; destruct H as [H|H].
  - apply (f_equal String.length) in H. rewrite string_app_length in H. simpl in H. lia.
  - destruct (canon x) as [|c1 [|c2 [|c3 [|c4 [|c5 [|c6 [|c7 r]]]]]]];
      simpl in H; try discriminate H.
    apply (f_equal String.length) in H. simpl in H.
    rewrite string_app_length in H. simpl in H. lia.
  - apply (f_equal String.length) in H. rewrite string_app_length in H. simpl in H. lia.
  - apply (f_equal String.length) in H. rewrite string_app_length in H. simpl in H. lia.
Qed.

Lemma strip_md_suffix_unfold (s : string) :
  strip_md_suffix s =
  if md_suffix_here s then ""
  else match s with
       | EmptyString => ""
       | String c s' => String c (strip_md_suffix s')
       end.
Proof. destruct s; reflexivity. Qed.

Lemma strip_md_suffix_match (stem ext : string) :
  md_suffix_here ext = true → strip_md_suffix (stem +:+ ext) = stem.
Proof.
  intros Hext. induction stem as [|c stem IH].
  - change ("" +:+ ext) with ext.
    by rewrite strip_md_suffix_unfold, Hext.
  - change (String c stem +:+ ext) with (String c (stem +:+ ext)).
    rewrite strip_md_suffix_unfold.
    change (String c (stem +:+ ext)) with (String c stem +:+ ext) at 1.
    rewrite md_suffix_unique by (discriminate || assumption).
    by rewrite IH.
Qed.

Lemma strip_md_suffix_no_match (name : string) :
  (∀ stem ext, name = stem +:+ ext → md_suffix_here ext = false) →
  strip_md_suffix name = name.
Proof.
  induction name as [|c name IH]; intros H.
  - reflexivity.
  - rewrite strip_md_suffix_unfold, (H "" (String c name) eq_refl).
    f_equal. apply IH.
    intros stem ext ->. apply (H (String c stem) ext). reflexivity.
Qed.

End PathFacts.

(** ** The gateway of the main process *)
Section GatewayFacts.
Import Ipc Main.

Lemma fromWebContents_Some (s : State) (sender w : positive) :
  fromWebContents s sender = Some w → w = sender ∧ sender ∈ allWindows s.
Proof.
  unfold fromWebContents. case_decide; [|discriminate].
  intros [= <-]. by split.
Qed.

Lemma fromWebContents_webContents (s : State) (w : positive) :
  w ∈ allWindows s → fromWebContents s (webContents w) = Some w.
Proof. intros H. unfold fromWebContents, webContents. by case_decide. Qed.

Lemma fromWebContents_alive (s : State) (sender w : positive) :
  fromWebContents s sender = Some w → w ∈ allWindows s.
Proof. intros H. by apply fromWebContents_Some in H as [-> ?]. Qed.

Lemma send_alive (w : positive) (m : Incoming) (s : State) :
  w ∈ allWindows s → send w m s = (tt, s, [Send w m]).
Proof. intros H. unfold send. by rewrite decide_True. Qed.

Lemma send_destroyed (w : positive) (m : Incoming) (s : State) :
  w ∉ allWindows s → send w m s = (tt, s, [Uncaught destroyed]).
Proof. intros H. unfold send. by rewrite decide_False. Qed.

Lemma dispatched_defer (s : State) (k : Callback) :
  dispatched s (defer k s) = [k].
Proof. unfold dispatched, defer. simpl. by rewrite drop_app_length. Qed.

Lemma dispatched_same (s : State) : dispatched s s = [].
Proof. unfold dispatched. by rewrite drop_all. Qed.

(** The three completion callbacks on a window that is alive, and on one that
    the platform has destroyed meanwhile. *)
Lemma openFileDone_alive (window : positive) (filePath : string) (err : option Error)
    (data : string) (s : State) :
  window ∈ allWindows s →
  openFileDone window filePath err data s =
  match err with
  | Some e =>
      (tt, s, [ConsoleError "Failed to read file:" e;
               Send window (SaveStatus ("Error loading file: " +:+ message e) None)])
  | None =>
      (tt, windowFilePaths_set window filePath s,
       [Send window (FileContentReady data (Path.basename filePath) filePath)])
  end.
Proof.
  intros H. destruct err; unfold openFileDone, mbind, M_bind, bind; simpl;
    rewrite send_alive by assumption; reflexivity.
Qed.

Lemma saveFileDone_alive (window : positive) (filePath : string) (err : option Error)
    (s : State) :
  window ∈ allWindows s →
  saveFileDone window filePath err s =
  match err with
  | Some e =>
      (tt, s, [ConsoleError "Failed to save file:" e;
               Send window (SaveStatus ("Error saving file: " +:+ message e) None)])
  | None =>
      (tt, windowFilePaths_set window filePath s,
       [Send window
          (SaveStatus ("File successfully saved as " +:+ dquote +:+ Path.basename filePath
                       +:+ dquote)
                      (Some (filePath, Path.basename filePath)))])
  end.
Proof.
  intros H. destruct err; unfold saveFileDone, mbind, M_bind, bind; simpl;
    rewrite send_alive by assumption; reflexivity.
Qed.

Lemma overwriteDone_alive (window : positive) (fullPath : string) (err : option Error)
    (s : State) :
  window ∈ allWindows s →
  overwriteDone window fullPath err s =
  match err with
  | Some e =>
      (tt, s, [ConsoleError "Failed to overwrite file:" e;
               Send window (SaveStatus ("Error overwriting file: " +:+ message e) None)])
  | None =>
      (tt, s,
       [Send window
          (SaveStatus ("File successfully saved to " +:+ dquote +:+ Path.basename fullPath
                       +:+ dquote)
                      None)])
  end.
Proof.
  intros H. destruct err; unfold overwriteDone, mbind, M_bind, bind; simpl;
    rewrite send_alive by assumption; reflexivity.
Qed.

Lemma runCallback_destroyed (k : Callback) (err : option Error) (data : string) (s : State) :
  callbackWindow k ∉ allWindows s →
  runCallback k err data s =
  (tt,
   match err, k with
   | None, OpenFileDone w p | None, SaveFileDone w p => windowFilePaths_set w p s
   | _, _ => s
   end,
   match err, k with
   | Some e, OpenFileDone _ _ => [ConsoleError "Failed to read file:" e; Uncaught destroyed]
   | Some e, SaveFileDone _ _ => [ConsoleError "Failed to save file:" e; Uncaught destroyed]
   | Some e, OverwriteDone _ _ =>
       [ConsoleError "Failed to overwrite file:" e; Uncaught destroyed]
   | None, _ => [Uncaught destroyed]
   end).
Proof.
  intros H. destruct k, err; simpl in H;
    unfold runCallback, openFileDone, saveFileDone, overwriteDone, mbind, M_bind, bind;
    simpl; rewrite send_destroyed by assumption; reflexivity.
Qed.

(** A completion callback writes to no window but the one it captured, to it at
    most once, and not at all when that window is destroyed. *)
Lemma runCallback_sends (k : Callback) (err : option Error) (data : string) (s : State) :
  ∃ m, sends (effectsOf (runCallback k err data s)) =
       if decide (callbackWindow k ∈ allWindows s) then [(callbackWindow k, m)] else [].
Proof.
  destruct (decide (callbackWindow k ∈ allWindows s)) as [H|H].
  - destruct k as [w p|w p|w p]; simpl in H; unfold runCallback.
    + rewrite openFileDone_alive by assumption. destruct err; eexists; reflexivity.
    + rewrite saveFileDone_alive by assumption. destruct err; eexists; reflexivity.
    + rewrite overwriteDone_alive by assumption. destruct err; eexists; reflexivity.
  - rewrite runCallback_destroyed by assumption.
    exists MenuOpenFile. by destruct k, err.
Qed.

(** The handlers of the three file requests, applied to a resolved window. *)
Lemma ipcMain_on_open (env : Answers) (s : State) (sender window : positive) :
  fromWebContents s sender = Some window →
  ipcMain_on env sender OpenFileDialog s =
  match showOpenDialogSync env with
  | Some (file0 :: _) =>
      (tt, defer (OpenFileDone window file0) s, [ShowOpenDialogSync window; ReadFile file0])
  | _ => (tt, s, [ShowOpenDialogSync window])
  end.
Proof.
  intros H. unfold ipcMain_on. rewrite H.
  destruct (showOpenDialogSync env) as [[|f fs]|] eqn:E; unfold getFileFromUser;
    rewrite ?E; destruct s; reflexivity.
Qed.

Lemma ipcMain_on_save (env : Answers) (s : State) (sender window : positive)
    (content defaultFileName : string) :
  fromWebContents s sender = Some window →
  ipcMain_on env sender (SaveFileRequest content defaultFileName) s =
  match showSaveDialogSync env with
  | Some (String c p) =>
      (tt, defer (SaveFileDone window (String c p)) s,
       [ShowSaveDialogSync window defaultFileName; WriteFile (String c p) content])
  | _ =>
      (tt, s, [ShowSaveDialogSync window defaultFileName;
               Send window (SaveStatus "Save As operation cancelled." None)])
  end.
Proof.
  intros H. pose proof (fromWebContents_alive _ _ _ H) as Ha.
  unfold ipcMain_on. rewrite H.
  destruct (showSaveDialogSync env) as [[|c p]|] eqn:E; unfold saveFileToUser;
    rewrite ?E; unfold mbind, M_bind, bind; simpl;
    rewrite ?send_alive by assumption; destruct s; reflexivity.
Qed.

Lemma ipcMain_on_overwrite (env : Answers) (s : State) (sender window : positive)
    (content fullPath : string) :
  fromWebContents s sender = Some window →
  ipcMain_on env sender (OverwriteFileRequest content fullPath) s =
  (tt, defer (OverwriteDone window fullPath) s, [WriteFile fullPath content]).
Proof.
  intros H. unfold ipcMain_on. rewrite H. destruct s; reflexivity.
Qed.

Lemma dispatch_completed (s : State) (i : nat) (k : Callback)
    (err : option Error) (data : string) :
  pending s !! i = Some k →
  dispatch (Completed i err data) s =
  (tt, stateOf (runCallback k err data (undefer i s)),
   effectsOf (runCallback k err data (undefer i s))).
Proof.
  intros H. unfold dispatch. rewrite H.
  unfold mbind, M_bind, bind, modify. simpl.
  by destruct (runCallback k err data (undefer i s)) as [[[] s2] e2].
Qed.

Lemma send_state (w : positive) (m : Incoming) (s : State) : stateOf (send w m s) = s.
Proof. unfold send. by case_decide. Qed.

Lemma send_effects (w : positive) (m : Incoming) (s : State) (e : Effect) :
  e ∈ effectsOf (send w m s) → e = Send w m ∨ e = Uncaught destroyed.
Proof.
  unfold send. case_decide; intros Hin; apply list_elem_of_singleton in Hin; auto.
Qed.

Lemma runCallback_state (k : Callback) (err : option Error) (data : string) (s : State) :
  stateOf (runCallback k err data s) =
  match err, k with
  | None, OpenFileDone w p | None, SaveFileDone w p => windowFilePaths_set w p s
  | _, _ => s
  end.
Proof.
  destruct (decide (callbackWindow k ∈ allWindows s)) as [H|H].
  - destruct k as [w p|w p|w p]; simpl in H; unfold runCallback.
    + rewrite openFileDone_alive by assumption. by destruct err.
    + rewrite saveFileDone_alive by assumption. by destruct err.
    + rewrite overwriteDone_alive by assumption. by destruct err.
  - by rewrite runCallback_destroyed.
Qed.

(** A completion callback logs, sends to its window or throws; it does nothing
    else. *)
Lemma runCallback_effects (k : Callback) (err : option Error) (data : string) (s : State)
    (e : Effect) :
  e ∈ effectsOf (runCallback k err data s) →
  (∃ what e0, e = ConsoleError what e0) ∨ (∃ m, e = Send (callbackWindow k) m) ∨
  e = Uncaught destroyed.
Proof.
  destruct (decide (callbackWindow k ∈ allWindows s)) as [H|H].
  - destruct k as [w p|w p|w p]; simpl in H; unfold runCallback;
      [rewrite openFileDone_alive by assumption
      |rewrite saveFileDone_alive by assumption
      |rewrite overwriteDone_alive by assumption];
      destruct err; intros Hin; apply list_elem_of_In in Hin; simpl in Hin;
      intuition (subst; eauto).
  - rewrite runCallback_destroyed by assumption. clear H.
    destruct k, err; intros Hin; apply list_elem_of_In in Hin; simpl in Hin;
      intuition (subst; eauto).
Qed.

Lemma click_state (item : MenuItem) (focused : option positive) (s : State) :
  stateOf (click item focused s) = s.
Proof. destruct focused; [apply send_state | reflexivity]. Qed.

Lemma click_effects (item : MenuItem) (focused : option positive) (s : State) (e : Effect) :
  e ∈ effectsOf (click item focused s) →
  (∃ w, focused = Some w ∧ e = Send w (menuMessage item)) ∨ e = Uncaught destroyed.
Proof.
  destruct focused as [w|]; simpl.
  - intros H. apply send_effects in H as [->| ->]; eauto.
  - intros H. by apply elem_of_nil in H.
Qed.

Lemma reachable_run (s : State) (evs : list Event) :
  Main.reachable s → Main.reachable (Main.run s evs).
Proof.
  revert s. induction evs as [|ev evs IH]; intros s Hs; simpl; [assumption|].
  apply IH. by constructor.
Qed.

End GatewayFacts.

Section GatewayProperties.
Import Ipc Main Samples.

(** C10. A request to open, to save as or to overwrite whose sender no longer
    resolves to a window is dropped: the handler returns at once, so no dialog is
    shown, no file operation is started, no message is sent, and the state, with
    its registry of paths and its pending operations, is what it was. *)
Theorem unresolved_sender_is_dropped (env : Answers) (s : State) (sender : positive) :
  fromWebContents s sender = None →
  dispatch (Message env sender OpenFileDialog) s = (tt, s, []) ∧
  (∀ content defaultFileName,
     dispatch (Message env sender (SaveFileRequest content defaultFileName)) s = (tt, s, [])) ∧
  (∀ content fullPath,
     dispatch (Message env sender (OverwriteFileRequest content fullPath)) s = (tt, s, [])).
Proof.
  intros H. unfold dispatch, ipcMain_on. rewrite H. repeat split.
Qed.

Lemma unresolved_sender_is_dropped_witness :
  fromWebContents closed1 1 = None ∧
  dispatch (Message picks 1%positive OpenFileDialog) closed1 = (tt, closed1, []) ∧
  (∀ content defaultFileName,
     dispatch (Message picks 1%positive (SaveFileRequest content defaultFileName)) closed1
     = (tt, closed1, [])) ∧
  (∀ content fullPath,
     dispatch (Message picks 1%positive (OverwriteFileRequest content fullPath)) closed1
     = (tt, closed1, [])).
Proof.
  split; [vm_compute; reflexivity|].
  apply (unresolved_sender_is_dropped picks closed1 1). vm_compute. reflexivity.
Defined.

(** C5. When the user cancels the save dialog (the dialog answers nothing, or the
    empty string), the handler shows the dialog and sends one [save-status]
    message to the requesting window, with the text "Save As operation
    cancelled." and no path or display name.  The state is unchanged: the
    registry keeps its entries and no write is pending. *)
Theorem save_as_cancelled (env : Answers) (s : State) (sender window : positive)
    (content defaultFileName : string) :
  fromWebContents s sender = Some window →
  truthy (showSaveDialogSync env) = false →
  dispatch (Message env sender (SaveFileRequest content defaultFileName)) s =
    (tt, s, [ShowSaveDialogSync window defaultFileName;
             Send window (SaveStatus "Save As operation cancelled." None)]) ∧
  windowFilePaths (step s (Message env sender (SaveFileRequest content defaultFileName)))
    = windowFilePaths s ∧
  fileOps (effectsOf (dispatch (Message env sender (SaveFileRequest content defaultFileName)) s))
    = [] ∧
  sends (effectsOf (dispatch (Message env sender (SaveFileRequest content defaultFileName)) s))
    = [(window, SaveStatus "Save As operation cancelled." None)].
Proof.
  intros Hw Hc.
  assert (E : dispatch (Message env sender (SaveFileRequest content defaultFileName)) s =
    (tt, s, [ShowSaveDialogSync window defaultFileName;
             Send window (SaveStatus "Save As operation cancelled." None)])).
  { unfold dispatch. rewrite (ipcMain_on_save _ _ _ window) by assumption.
    destruct (showSaveDialogSync env) as [[|c p]|]; simpl in Hc; congruence. }
  unfold step. rewrite E. repeat split.
Qed.

Lemma save_as_cancelled_witness :
  dispatch (Message dismisses 1%positive (SaveFileRequest "# notes" "Untitled.md")) ready =
    (tt, ready, [ShowSaveDialogSync 1 "Untitled.md";
                 Send 1 (SaveStatus "Save As operation cancelled." None)]).
Proof.
  apply (save_as_cancelled dismisses ready 1 1 "# notes" "Untitled.md");
    vm_compute; reflexivity.
Defined.

(** C4 (amended).  When the user chooses a path in the save dialog, the
    handler starts the write of the content to that path.  When the write
    completes without error, the callback records the chosen path for the
    requesting window in the registry, whether or not the window still exists.
    If the window is alive at that moment, the callback sends it one
    [save-status] message that carries a success text, the chosen path and its
    display name, [path.basename] of the path, its final segment.  If the window
    was destroyed while the write was in flight, the send throws and no message
    leaves. *)
Theorem save_as_success (env : Answers) (s : State) (sender window : positive)
    (content defaultFileName path : string) :
  fromWebContents s sender = Some window →
  showSaveDialogSync env = Some path →
  path ≠ "" →
  dispatch (Message env sender (SaveFileRequest content defaultFileName)) s =
    (tt, defer (SaveFileDone window path) s,
     [ShowSaveDialogSync window defaultFileName; WriteFile path content]) ∧
  (∀ s' i data,
     pending s' !! i = Some (SaveFileDone window path) →
     windowFilePaths (step s' (Completed i None data)) = <[window:=path]> (windowFilePaths s') ∧
     (window ∈ allWindows s' →
      dispatch (Completed i None data) s' =
        (tt, windowFilePaths_set window path (undefer i s'),
         [Send window
            (SaveStatus ("File successfully saved as " +:+ dquote +:+ Path.basename path
                         +:+ dquote)
                        (Some (path, Path.basename path)))])) ∧
     (window ∉ allWindows s' →
      dispatch (Completed i None data) s' =
        (tt, windowFilePaths_set window path (undefer i s'), [Uncaught destroyed]))) ∧
  (∀ dir name, Path.segment name → path = dir +:+ "/" +:+ name → Path.basename path = name).
Proof.
  intros Hw Hp Hne. split; [|split].
  - unfold dispatch. rewrite (ipcMain_on_save _ _ _ window) by assumption.
    rewrite Hp. destruct path; [contradiction | reflexivity].
  - intros s' i data Hk. unfold step.
    rewrite (dispatch_completed _ _ _ _ _ Hk).
    destruct (decide (window ∈ allWindows s')) as [Ha|Ha].
    + unfold runCallback. rewrite saveFileDone_alive by exact Ha.
      split; [reflexivity|]. split; [reflexivity | contradiction].
    + rewrite (runCallback_destroyed (SaveFileDone window path)) by exact Ha.
      split; [reflexivity|]. split; [contradiction | reflexivity].
  - intros dir name Hseg ->. by apply basename_final_segment.
Qed.

Lemma save_as_success_witness :
  dispatch (Message picks 1%positive (SaveFileRequest "# notes" "Untitled.md")) ready =
    (tt, defer (SaveFileDone 1 "/home/u/b.md") ready,
     [ShowSaveDialogSync 1 "Untitled.md"; WriteFile "/home/u/b.md" "# notes"]) ∧
  windowFilePaths
    (run ready [Message picks 1%positive (SaveFileRequest "# notes" "Untitled.md");
                Completed 0 None ""]) !! 1%positive = Some "/home/u/b.md".
Proof.
  destruct (save_as_success picks ready 1 1 "# notes" "Untitled.md" "/home/u/b.md")
    as (H1 & H2 & _); [vm_compute; reflexivity | reflexivity | discriminate |].
  split; [exact H1|].
  vm_compute. reflexivity.
Defined.

(** Window 1 opens a second window and asks for a save-as; the user chooses a
    path, and window 1 is closed while the write is in flight.  When the write
    completes without error, the callback records the path for the closed
    window and then throws on the send: no status reaches any window. *)
Lemma save_as_success_after_close :
  let s := run ready [Message picks 1%positive NewWindowRequest;
                      Message picks 1%positive (SaveFileRequest "# notes" "Untitled.md");
                      Closed 1] in
  Main.reachable s ∧
  allWindows s = {[2%positive]} ∧
  pending s !! 0%nat = Some (SaveFileDone 1 "/home/u/b.md") ∧
  effectsOf (dispatch (Completed 0 None "") s) = [Uncaught destroyed] ∧
  sends (effectsOf (dispatch (Completed 0 None "") s)) = [] ∧
  windowFilePaths (step s (Completed 0 None "")) !! 1%positive = Some "/home/u/b.md".
Proof.
  intros s. split.
  - apply reachable_run, reachable_run. constructor.
  - vm_compute. repeat split.
Qed.

(** C6 (amended).  An open request whose dialog yields a file starts
    the read of that file for the window that the sender resolves to.  When the
    read fails, the callback logs the error and leaves the registry of paths as
    it was.  If the window is alive at that moment, the callback sends one
    [save-status] message with the text of the error to that window, and to no
    other; if the window was destroyed while the read was in flight, the send
    throws and no message leaves.  A [file-content-ready] message is sent by no
    event other than the successful completion of a read, and then to the
    window that asked. *)
Theorem read_failure_reported (env : Answers) (s0 : State) (sender window : positive)
    (filePath : string) (others : list string) :
  fromWebContents s0 sender = Some window →
  showOpenDialogSync env = Some (filePath :: others) →
  dispatch (Message env sender OpenFileDialog) s0 =
    (tt, defer (OpenFileDone window filePath) s0,
     [ShowOpenDialogSync window; ReadFile filePath]) ∧
  (∀ s i e data,
     pending s !! i = Some (OpenFileDone window filePath) →
     windowFilePaths (step s (Completed i (Some e) data)) = windowFilePaths s ∧
     (window ∈ allWindows s →
      dispatch (Completed i (Some e) data) s =
        (tt, undefer i s,
         [ConsoleError "Failed to read file:" e;
          Send window (SaveStatus ("Error loading file: " +:+ message e) None)]) ∧
      sends (effectsOf (dispatch (Completed i (Some e) data) s)) =
        [(window, SaveStatus ("Error loading file: " +:+ message e) None)]) ∧
     (window ∉ allWindows s →
      dispatch (Completed i (Some e) data) s =
        (tt, undefer i s, [ConsoleError "Failed to read file:" e; Uncaught destroyed]) ∧
      sends (effectsOf (dispatch (Completed i (Some e) data) s)) = [])) ∧
  (∀ ev s' w content name path,
     (w, FileContentReady content name path) ∈ sends (effectsOf (dispatch ev s')) →
     ∃ j, ev = Completed j None content ∧ pending s' !! j = Some (OpenFileDone w path)).
Proof.
  intros Hw Hf. split; [|split].
  { unfold dispatch. rewrite (ipcMain_on_open _ _ _ window) by assumption.
    by rewrite Hf. }
  { intros s i e data Hk. unfold step. rewrite (dispatch_completed _ _ _ _ _ Hk).
   
    destruct (decide (window ∈ allWindows s)) as [Ha|Ha].
    - unfold runCallback. rewrite openFileDone_alive by exact Ha.
      split; [reflexivity|]. split; [by split | contradiction].
    - rewrite (runCallback_destroyed (OpenFileDone window filePath)) by exact Ha.
      split; [reflexivity|]. split; [contradiction | by split]. }
  intros ev s' w content name path Hin.
  destruct ev as [id|id|env' sender' r|j err d|w'|item focused|opener id].
  - exfalso. unfold dispatch in Hin. destruct (isReady s'); by member.
  - exfalso. unfold dispatch in Hin. destruct (isReady s'); [case_decide|]; by member.
  - exfalso. unfold dispatch in Hin.
    destruct (fromWebContents s' sender') as [window'|] eqn:Hw'.
    + destruct r as [| |c0 n0|c0 p0|t0].
      * by member.
      * rewrite (ipcMain_on_open _ _ _ window') in Hin by assumption.
        destruct (showOpenDialogSync env') as [[|? ?]|]; by member.
      * rewrite (ipcMain_on_save _ _ _ window') in Hin by assumption.
        destruct (showSaveDialogSync env') as [[|? ?]|]; by member.
      * rewrite (ipcMain_on_overwrite _ _ _ window') in Hin by assumption. by member.
      * unfold ipcMain_on in Hin. rewrite Hw' in Hin. by member.
    + destruct r; unfold ipcMain_on in Hin; rewrite ?Hw' in Hin; by member.
  - destruct (pending s' !! j) as [k|] eqn:Ej;
      [|unfold dispatch in Hin; rewrite Ej in Hin; by member].
    rewrite (dispatch_completed _ _ _ _ _ Ej) in Hin. exists j.
    destruct (decide (callbackWindow k ∈ allWindows (undefer j s'))) as [Ha|Ha].
    + destruct k as [w0 p0|w0 p0|w0 p0]; unfold runCallback in Hin; simpl in Ha.
      * rewrite openFileDone_alive in Hin by exact Ha.
        destruct err as [e0|]; [by member|].
        apply list_elem_of_singleton in Hin. injection Hin as -> -> _ ->. by split.
      * rewrite saveFileDone_alive in Hin by exact Ha. destruct err; by member.
      * rewrite overwriteDone_alive in Hin by exact Ha. destruct err; by member.
    + rewrite runCallback_destroyed in Hin by exact Ha. destruct k, err; by member.
  - exfalso. by member.
  - exfalso. unfold dispatch in Hin. destruct (isReady s'); [|by member].
    destruct focused as [f|]; [|by member]. unfold click, send in Hin.
    case_decide; destruct item; by member.
  - exfalso. unfold dispatch in Hin. destruct (fromWebContents s' opener); by member.
Qed.

Lemma read_failure_reported_witness :
  let s := run ready [Message picks 1%positive OpenFileDialog] in
  let e := mkError "ENOENT: no such file or directory" in
  pending s !! 0%nat = Some (OpenFileDone 1 "/home/u/a.md") ∧
  windowFilePaths (step s (Completed 0 (Some e) "")) = windowFilePaths s ∧
  sends (effectsOf (dispatch (Completed 0 (Some e) "") s)) =
    [(1%positive, SaveStatus "Error loading file: ENOENT: no such file or directory" None)].
Proof.
  intros s e.
  assert (Hk : pending s !! 0%nat = Some (OpenFileDone 1 "/home/u/a.md"))
    by (vm_compute; reflexivity).
  assert (Hw : fromWebContents ready 1 = Some 1%positive) by (vm_compute; reflexivity).
  assert (Ha : 1%positive ∈ allWindows s) by (vm_compute; reflexivity).
  destruct (read_failure_reported picks ready 1 1 "/home/u/a.md" [] Hw eq_refl)
    as (_ & H & _).
  destruct (H s 0%nat e "" Hk) as (H2 & H3 & _).
  split; [exact Hk|]. split; [exact H2 | exact (proj2 (H3 Ha))].
Defined.

(** Window 1 opens a second window and asks to open a file; the user picks one,
    and window 1 is closed while the read is in flight.  When the read fails,
    the callback logs the error and then throws on the send: no status reaches
    any window. *)
Lemma read_failure_after_close :
  let s := run ready [Message picks 1%positive NewWindowRequest;
                      Message picks 1%positive OpenFileDialog; Closed 1] in
  let e := mkError "ENOENT: no such file or directory" in
  Main.reachable s ∧
  allWindows s = {[2%positive]} ∧
  pending s !! 0%nat = Some (OpenFileDone 1 "/home/u/a.md") ∧
  effectsOf (dispatch (Completed 0 (Some e) "") s) =
    [ConsoleError "Failed to read file:" e; Uncaught destroyed] ∧
  sends (effectsOf (dispatch (Completed 0 (Some e) "") s)) = [].
Proof.
  intros s e. split.
  - apply reachable_run, reachable_run. constructor.
  - vm_compute. repeat split.
Qed.

(** C7 (amended).  An overwrite request starts the write to the path
    it carries for the window that the sender resolves to.  When the write
    completes without error and the window is alive at that moment, the callback
    sends that window one [save-status] message whose text names the base name
    of the target, [path.basename] of the path that was written, and which
    carries neither a path nor a display name beside the text.  If the window
    was destroyed while the write was in flight, the send throws and no message
    leaves.  For a path that ends in a directory separator and a segment, the
    base name is that segment. *)
Theorem overwrite_success_reports_basename (env : Answers) (s0 : State)
    (sender window : positive) (content fullPath : string) :
  fromWebContents s0 sender = Some window →
  dispatch (Message env sender (OverwriteFileRequest content fullPath)) s0 =
    (tt, defer (OverwriteDone window fullPath) s0, [WriteFile fullPath content]) ∧
  (∀ s i data,
     pending s !! i = Some (OverwriteDone window fullPath) →
     (window ∈ allWindows s →
      dispatch (Completed i None data) s =
        (tt, undefer i s,
         [Send window
            (SaveStatus ("File successfully saved to " +:+ dquote +:+ Path.basename fullPath
                         +:+ dquote)
                        None)])) ∧
     (window ∉ allWindows s →
      dispatch (Completed i None data) s = (tt, undefer i s, [Uncaught destroyed]))) ∧
  (∀ dir name, Path.segment name → fullPath = dir +:+ "/" +:+ name →
     Path.basename fullPath = name).
Proof.
  intros Hw. split; [|split].
  - unfold dispatch. by apply ipcMain_on_overwrite.
  - intros s i data Hk. rewrite (dispatch_completed _ _ _ _ _ Hk).
    destruct (decide (window ∈ allWindows s)) as [Ha|Ha].
    + unfold runCallback. rewrite overwriteDone_alive by exact Ha.
      split; [reflexivity | contradiction].
    + rewrite (runCallback_destroyed (OverwriteDone window fullPath)) by exact Ha.
      split; [contradiction | reflexivity].
  - intros dir name Hseg ->. by apply basename_final_segment.
Qed.

Lemma overwrite_success_reports_basename_witness :
  let s := run ready [Message picks 1%positive (OverwriteFileRequest "# a" "/home/u/a.md")] in
  effectsOf (dispatch (Completed 0 None "") s) =
    [Send 1 (SaveStatus ("File successfully saved to " +:+ dquote +:+ "a.md" +:+ dquote) None)].
Proof.
  intros s.
  assert (Hk : pending s !! 0%nat = Some (OverwriteDone 1 "/home/u/a.md"))
    by (vm_compute; reflexivity).
  assert (Hw : fromWebContents ready 1 = Some 1%positive) by (vm_compute; reflexivity).
  assert (Ha : 1%positive ∈ allWindows s) by (vm_compute; reflexivity).
  destruct (overwrite_success_reports_basename picks ready 1 1 "# a" "/home/u/a.md" Hw)
    as (_ & H & Hb).
  rewrite (proj1 (H s 0%nat "" Hk) Ha). unfold effectsOf. simpl.
  rewrite (Hb "/home/u" "a.md"); [reflexivity | | reflexivity].
  split; [discriminate|]. repeat constructor; discriminate.
Defined.

(** Window 1 opens a second window and asks to overwrite a file, and is closed
    while the write is in flight.  When the write completes without error, the
    callback throws on the send: no status reaches any window. *)
Lemma overwrite_success_after_close :
  let s := run ready [Message picks 1%positive NewWindowRequest;
                      Message picks 1%positive (OverwriteFileRequest "# a" "/home/u/a.md");
                      Closed 1] in
  Main.reachable s ∧
  allWindows s = {[2%positive]} ∧
  pending s !! 0%nat = Some (OverwriteDone 1 "/home/u/a.md") ∧
  effectsOf (dispatch (Completed 0 None "") s) = [Uncaught destroyed] ∧
  sends (effectsOf (dispatch (Completed 0 None "") s)) = [].
Proof.
  intros s. split.
  - apply reachable_run, reachable_run. constructor.
  - vm_compute. repeat split.
Qed.

(** C9. An overwrite request is served without a look at the registry of paths:
    whatever the registry holds, also when it binds the requesting window to
    another path or to none, the handler starts the write to the path that the
    request carries.  Neither the handler nor the completion of the write,
    successful or not, changes the registry. *)
Theorem overwrite_ignores_registry (env : Answers) (s : State) (sender window : positive)
    (content fullPath : string) :
  fromWebContents s sender = Some window →
  dispatch (Message env sender (OverwriteFileRequest content fullPath)) s =
    (tt, defer (OverwriteDone window fullPath) s, [WriteFile fullPath content]) ∧
  (∀ registry,
     effectsOf (dispatch (Message env sender (OverwriteFileRequest content fullPath))
                         (withFilePaths registry s))
     = [WriteFile fullPath content]) ∧
  windowFilePaths (step s (Message env sender (OverwriteFileRequest content fullPath)))
    = windowFilePaths s ∧
  (∀ s' i err data,
     pending s' !! i = Some (OverwriteDone window fullPath) →
     windowFilePaths (step s' (Completed i err data)) = windowFilePaths s').
Proof.
  intros Hw. split; [|split; [|split]].
  - unfold dispatch. by apply ipcMain_on_overwrite.
  - intros registry. unfold dispatch.
    rewrite (ipcMain_on_overwrite _ _ _ window); [reflexivity|].
    destruct s; exact Hw.
  - unfold step, dispatch. by rewrite (ipcMain_on_overwrite _ _ _ window).
  - intros s' i err data Hk. unfold step.
    rewrite (dispatch_completed _ _ _ _ _ Hk).
    destruct (decide (window ∈ allWindows (undefer i s'))) as [Ha|Ha].
    + unfold runCallback. rewrite overwriteDone_alive by exact Ha. by destruct err.
    + rewrite (runCallback_destroyed (OverwriteDone window fullPath)) by exact Ha.
      by destruct err.
Qed.

Lemma overwrite_ignores_registry_witness :
  let s := run ready [Message picks 1%positive OpenFileDialog; Completed 0 None "# a"] in
  windowFilePaths s !! 1%positive = Some "/home/u/a.md" ∧
  dispatch (Message picks 1%positive (OverwriteFileRequest "# a" "/etc/motd")) s =
    (tt, defer (OverwriteDone 1 "/etc/motd") s, [WriteFile "/etc/motd" "# a"]) ∧
  windowFilePaths (step s (Message picks 1%positive (OverwriteFileRequest "# a" "/etc/motd")))
    = windowFilePaths s.
Proof.
  intros s.
  assert (Hw : fromWebContents s 1 = Some 1%positive) by (vm_compute; reflexivity).
  destruct (overwrite_ignores_registry picks s 1 1 "# a" "/etc/motd" Hw) as (H1 & _ & H3 & _).
  split; [vm_compute; reflexivity|]. split; [exact H1 | exact H3].
Defined.

Lemma ipcMain_on_addressing (env : Answers) (s : State) (sender : positive) (r : Request) :
  (∀ w m, (w, m) ∈ sends (effectsOf (ipcMain_on env sender r s)) →
          fromWebContents s sender = Some w) ∧
  (∀ k, k ∈ dispatched s (stateOf (ipcMain_on env sender r s)) →
        fromWebContents s sender = Some (callbackWindow k)) ∧
  (length (sends (effectsOf (ipcMain_on env sender r s))) ≤ 1)%nat.
Proof.
  destruct (fromWebContents s sender) as [window|] eqn:Hw.
  - destruct r as [| |content name|content path|title].
    + unfold ipcMain_on. split; [|split]; [by member | | simpl; lia].
      intros k H. unfold dispatched, stateOf in H. simpl in H.
      rewrite drop_all in H. by apply elem_of_nil in H.
    + rewrite (ipcMain_on_open _ _ _ window) by assumption.
      destruct (showOpenDialogSync env) as [[|f fs]|]; unfold stateOf, effectsOf; simpl;
        rewrite ?dispatched_defer, ?dispatched_same;
        (split; [|split]; [by member | by member | lia]).
    + rewrite (ipcMain_on_save _ _ _ window) by assumption.
      destruct (showSaveDialogSync env) as [[|c p]|]; unfold stateOf, effectsOf; simpl;
        rewrite ?dispatched_defer, ?dispatched_same;
        (split; [|split]; [by member | by member | lia]).
    + rewrite (ipcMain_on_overwrite _ _ _ window) by assumption.
      unfold stateOf, effectsOf; simpl. rewrite dispatched_defer.
      split; [|split]; [by member | by member | lia].
    + unfold ipcMain_on. rewrite Hw. unfold stateOf, effectsOf; simpl.
      rewrite dispatched_same.
      split; [|split]; [by member | by member | lia].
  - destruct r as [| |content name|content path|title];
      unfold ipcMain_on; rewrite ?Hw; unfold stateOf, effectsOf; simpl;
      rewrite ?dispatched_same;
      (split; [|split]; [by member | try by member | lia]).
    intros k H. unfold dispatched in H. simpl in H.
    rewrite drop_all in H. by apply elem_of_nil in H.
Qed.

(** C1. For two distinct windows W1 and W2, every message that serving a request
    of W1 produces, while the handler runs or when a file operation that the
    handler started completes, is addressed to the window that the sender of the
    request resolves to, which is W1; none is addressed to W2.  No handler sends
    more than one message, and a completion callback sends exactly one when the
    window it captured is alive and none when it is destroyed. *)
Theorem per_window_addressing (env : Answers) (s : State) (W1 W2 : positive) (r : Request) :
  W1 ≠ W2 →
  (∀ w m, produces env s (webContents W1) r w m →
          fromWebContents s (webContents W1) = Some w ∧ w = W1 ∧ w ≠ W2) ∧
  (length (sends (effectsOf (dispatch (Message env (webContents W1) r) s))) ≤ 1)%nat ∧
  (∀ k err data s',
     length (sends (effectsOf (runCallback k err data s'))) =
     if decide (callbackWindow k ∈ allWindows s') then 1%nat else 0%nat).
Proof.
  intros Hne.
  destruct (ipcMain_on_addressing env s (webContents W1) r) as (Hnow & Hlater & Hlen).
  split; [|split].
  - assert (Hres : ∀ w, fromWebContents s (webContents W1) = Some w →
                        fromWebContents s (webContents W1) = Some w ∧ w = W1 ∧ w ≠ W2).
    { intros w Hw. destruct (fromWebContents_Some _ _ _ Hw) as [-> _].
      unfold webContents in *. by repeat split. }
    intros w m Hp. apply Hres.
    destruct Hp as [w m Hin | k err data s' w m Hk Hin].
    + by apply (Hnow w m).
    + destruct (runCallback_sends k err data s') as [m' E].
      rewrite E in Hin. case_decide; [|by apply elem_of_nil in Hin].
      apply list_elem_of_singleton in Hin.
      injection Hin as -> _. by apply Hlater.
  - exact Hlen.
  - intros k err data s'. destruct (runCallback_sends k err data s') as [m' E].
    rewrite E. by case_decide.
Qed.

Lemma per_window_addressing_witness :
  let s := run ready [Message picks 1%positive NewWindowRequest] in
  produces picks s (webContents 1) OpenFileDialog 1
           (FileContentReady "# a" "a.md" "/home/u/a.md") ∧
  ∀ w m, produces picks s (webContents 1) OpenFileDialog w m → w = 1%positive ∧ w ≠ 2%positive.
Proof.
  intros s. split.
  - apply (produces_later _ _ _ _ (OpenFileDone 1 "/home/u/a.md") None "# a" s).
    + vm_compute. apply list_elem_of_singleton. reflexivity.
    + vm_compute. apply list_elem_of_singleton. reflexivity.
  - intros w m Hp.
    destruct (per_window_addressing picks s 1 2 OpenFileDialog) as (H & _); [discriminate|].
    destruct (H w m Hp) as (_ & H1 & H2). by split.
Defined.

End GatewayProperties.

(** ** Object identities *)
Section Allocation.
Import Ipc Main Outcome.

Lemma allocated_initial : allocated Main.initial.
Proof.
  repeat split; simpl; intros x H.
  - by apply not_elem_of_empty in H.
  - by apply not_elem_of_empty in H.
  - rewrite lookup_empty in H. by destruct H.
  - by apply elem_of_nil in H.
Qed.

Lemma allocated_defer (s : State) (k : Callback) :
  allocated s → (callbackWindow k < nextObject s)%positive → allocated (defer k s).
Proof.
  intros (Ha & Ho & Hr & Hp) Hk. repeat split; simpl; auto.
  intros k' Hin. apply elem_of_app in Hin as [Hin|Hin]; [by apply Hp|].
  apply list_elem_of_singleton in Hin. by subst.
Qed.

Lemma allocated_undefer (s : State) (i : nat) :
  allocated s → allocated (undefer i s).
Proof.
  intros (Ha & Ho & Hr & Hp). repeat split; simpl; auto.
  intros k Hin. apply Hp.
  apply elem_of_app in Hin as [Hin|Hin].
  - by apply (subseteq_take i (pending s)).
  - by apply (subseteq_drop (S i) (pending s)).
Qed.

Lemma allocated_set (s : State) (w : positive) (p : string) :
  allocated s → (w < nextObject s)%positive → allocated (windowFilePaths_set w p s).
Proof.
  intros (Ha & Ho & Hr & Hp) Hw. repeat split; simpl; auto.
  intros x Hx. destruct (decide (w = x)) as [<-|Hne]; [assumption|].
  rewrite lookup_insert_ne in Hx by assumption. by apply Hr.
Qed.

Lemma createWindow_result (id : nat) (s : State) :
  createWindow id s =
  (nextObject s,
   mkState ({[nextObject s]} ∪ openWindows s) (windowFilePaths s)
           ({[nextObject s]} ∪ allWindows s) (<[nextObject s:=id]> (windowId s))
           (Pos.succ (nextObject s)) (pending s) (isReady s),
   [LoadURL (nextObject s) "http://localhost:5173"]).
Proof. reflexivity. Qed.

Lemma allocated_createWindow (id : nat) (s : State) :
  allocated s → allocated (stateOf (createWindow id s)).
Proof.
  intros (Ha & Ho & Hr & Hp). rewrite createWindow_result. unfold stateOf. simpl.
  repeat split; simpl.
  - intros w Hw. apply elem_of_union in Hw as [Hw|Hw].
    + apply elem_of_singleton in Hw. subst. lia.
    + specialize (Ha w Hw). lia.
  - intros w Hw. apply elem_of_union in Hw as [Hw|Hw].
    + apply elem_of_singleton in Hw. subst. lia.
    + specialize (Ho w Hw). lia.
  - intros w Hw. specialize (Hr w Hw). lia.
  - intros k Hk. specialize (Hp k Hk). lia.
Qed.

Lemma allocated_closed (s : State) (w : positive) :
  allocated s → allocated (openWindows_delete w (destroy w s)).
Proof.
  intros (Ha & Ho & Hr & Hp). repeat split; simpl; auto.
  - intros x Hx. apply Ha. apply elem_of_difference in Hx. tauto.
  - intros x Hx. apply Ho. apply elem_of_difference in Hx. tauto.
Qed.

Lemma allocated_runCallback (s : State) (k : Callback) (err : option Error) (data : string) :
  allocated s → (callbackWindow k < nextObject s)%positive →
  allocated (stateOf (runCallback k err data s)).
Proof.
  intros Hs Hk. rewrite runCallback_state.
  destruct k, err; simpl in *; try assumption; by apply allocated_set.
Qed.

Lemma allocated_setReady (s : State) : allocated s → allocated (setReady s).
Proof. intros (Ha & Ho & Hr & Hp). by repeat split. Qed.

Lemma dispatch_ready (id : nat) (s : State) :
  dispatch (Ready id) s =
  if isReady s then (tt, s, [])
  else (tt, setReady (stateOf (createWindow id s)),
        [LoadURL (nextObject s) "http://localhost:5173"]).
Proof. unfold dispatch. by destruct (isReady s). Qed.

Lemma dispatch_activate (id : nat) (s : State) :
  dispatch (Activate id) s =
  if isReady s && bool_decide (size (allWindows s) = 0%nat)
  then (tt, stateOf (createWindow id s), [LoadURL (nextObject s) "http://localhost:5173"])
  else (tt, s, []).
Proof.
  unfold dispatch. destruct (isReady s); [|reflexivity].
  simpl. case_bool_decide; [by rewrite decide_True | by rewrite decide_False].
Qed.

Lemma dispatch_click (item : MenuItem) (focused : option positive) (s : State) :
  dispatch (MenuClick item focused) s =
  if isReady s then click item focused s else (tt, s, []).
Proof. reflexivity. Qed.

Lemma dispatch_open (opener : positive) (id : nat) (s : State) :
  dispatch (WindowOpen opener id) s =
  if decide (opener ∈ allWindows s)
  then (tt, stateOf (newBrowserWindow id s), [])
  else (tt, s, []).
Proof. unfold dispatch, fromWebContents. by case_decide. Qed.

Lemma allocated_newBrowserWindow (id : nat) (s : State) :
  allocated s → allocated (stateOf (newBrowserWindow id s)).
Proof.
  intros (Ha & Ho & Hr & Hp). unfold stateOf. simpl. repeat split; simpl.
  - intros w Hw. apply elem_of_union in Hw as [Hw|Hw].
    + apply elem_of_singleton in Hw. subst. lia.
    + specialize (Ha w Hw). lia.
  - intros w Hw. specialize (Ho w Hw). lia.
  - intros w Hw. specialize (Hr w Hw). lia.
  - intros k Hk. specialize (Hp k Hk). lia.
Qed.

Lemma allocated_step (s : State) (ev : Event) : allocated s → allocated (step s ev).
Proof.
  intros Hs. unfold step. destruct ev as [id|id|env sender r|i err data|w|item focused|opener id'].
  - rewrite dispatch_ready. destruct (isReady s); [assumption|].
    by apply allocated_setReady, allocated_createWindow.
  - rewrite dispatch_activate.
    destruct (isReady s && bool_decide (size (allWindows s) = 0%nat));
      [by apply allocated_createWindow | assumption].
  - unfold dispatch.
    destruct (fromWebContents s sender) as [window|] eqn:Hw.
    + assert (Hlt : (window < nextObject s)%positive).
      { pose proof Hs as (Ha & _). apply fromWebContents_Some in Hw as [-> Hin].
        by apply Ha. }
      destruct r as [| |content name|content path|title].
      * by apply allocated_createWindow.
      * rewrite (ipcMain_on_open _ _ _ window) by assumption.
        destruct (showOpenDialogSync env) as [[|f fs]|]; try assumption.
        by apply allocated_defer.
      * rewrite (ipcMain_on_save _ _ _ window) by assumption.
        destruct (showSaveDialogSync env) as [[|c p]|]; try assumption.
        by apply allocated_defer.
      * rewrite (ipcMain_on_overwrite _ _ _ window) by assumption.
        by apply allocated_defer.
      * unfold ipcMain_on. rewrite Hw. assumption.
    + destruct r as [| |content name|content path|title];
        unfold ipcMain_on; rewrite ?Hw; try assumption.
      by apply allocated_createWindow.
  - destruct (pending s !! i) as [k|] eqn:Hk;
      [|unfold dispatch; rewrite Hk; assumption].
    rewrite (dispatch_completed _ _ _ _ _ Hk).
    change (allocated (stateOf (runCallback k err data (undefer i s)))).
    apply allocated_runCallback; [by apply allocated_undefer|].
    simpl. pose proof Hs as (_ & _ & _ & Hp). apply Hp.
    by apply list_elem_of_lookup_2 in Hk.
  - by apply allocated_closed.
  - rewrite dispatch_click. destruct (isReady s); [|assumption].
    by rewrite click_state.
  - rewrite dispatch_open. case_decide; [by apply allocated_newBrowserWindow | assumption].
Qed.

Lemma reachable_allocated (s : State) : Main.reachable s → allocated s.
Proof.
  induction 1 as [|s ev _ IH]; [apply allocated_initial | by apply allocated_step].
Qed.

(** The registry after an event: only the successful completion of a read or of
    a save-as writes to it. *)
Lemma step_registry (s : State) (ev : Event) :
  windowFilePaths (step s ev) =
  match ev with
  | Completed i None _ =>
      match pending s !! i with
      | Some k =>
          match boundPath k with
          | Some path => <[callbackWindow k := path]> (windowFilePaths s)
          | None => windowFilePaths s
          end
      | None => windowFilePaths s
      end
  | _ => windowFilePaths s
  end.
Proof.
  unfold step. destruct ev as [id|id|env sender r|i err data|w|item focused|opener id'].
  - rewrite dispatch_ready. by destruct (isReady s).
  - rewrite dispatch_activate.
    by destruct (isReady s && bool_decide (size (allWindows s) = 0%nat)).
  - unfold dispatch. destruct (fromWebContents s sender) as [window|] eqn:Hw.
    + destruct r as [| |content name|content path|title].
      * reflexivity.
      * rewrite (ipcMain_on_open _ _ _ window) by assumption.
        by destruct (showOpenDialogSync env) as [[|? ?]|].
      * rewrite (ipcMain_on_save _ _ _ window) by assumption.
        by destruct (showSaveDialogSync env) as [[|? ?]|].
      * by rewrite (ipcMain_on_overwrite _ _ _ window).
      * unfold ipcMain_on. by rewrite Hw.
    + destruct r; unfold ipcMain_on; by rewrite ?Hw.
  - destruct (pending s !! i) as [k|] eqn:Hk.
    + rewrite (dispatch_completed _ _ _ _ _ Hk).
      change (stateOf (tt, ?x, ?y)) with x. rewrite runCallback_state.
      by destruct k, err.
    + unfold dispatch. rewrite Hk. by destruct err.
  - reflexivity.
  - rewrite dispatch_click. destruct (isReady s); [|reflexivity].
    by rewrite click_state.
  - rewrite dispatch_open. by case_decide.
Qed.

(** No event binds a path to an object that is not allocated yet. *)
Lemma step_registry_fresh (s : State) (ev : Event) :
  allocated s → windowFilePaths (step s ev) !! nextObject s = None.
Proof.
  intros (_ & _ & Hr & Hp).
  assert (Hnone : windowFilePaths s !! nextObject s = None).
  { destruct (windowFilePaths s !! nextObject s) as [q|] eqn:E; [|reflexivity].
    assert (Hs : is_Some (windowFilePaths s !! nextObject s)) by (by exists q).
    specialize (Hr _ Hs). lia. }
  rewrite step_registry. destruct ev as [| | |i [e|] data| | |]; try exact Hnone.
  destruct (pending s !! i) as [k|] eqn:Hk; [|exact Hnone].
  destruct (Outcome.boundPath k) as [path|]; [|exact Hnone].
  rewrite lookup_insert_ne; [exact Hnone|].
  apply list_elem_of_lookup_2 in Hk. specialize (Hp k Hk). lia.
Qed.

(** The platform gets a window more only by the construction of a new object. *)
Lemma step_allWindows (s : State) (ev : Event) (w : positive) :
  w ∈ allWindows (step s ev) → w ∈ allWindows s ∨ w = nextObject s.
Proof.
  assert (Hnew : ∀ x : positive, x ∈ ({[nextObject s]} ∪ allWindows s : gset positive) →
                   x ∈ allWindows s ∨ x = nextObject s).
  { intros x Hx. apply elem_of_union in Hx as [Hx|Hx]; [right | by left].
    by apply elem_of_singleton in Hx. }
  unfold step. destruct ev as [id|id|env sender r|i err data|w'|item focused|opener id'].
  - rewrite dispatch_ready. destruct (isReady s); [by left | apply Hnew].
  - rewrite dispatch_activate.
    destruct (isReady s && bool_decide (size (allWindows s) = 0%nat)); [apply Hnew | by left].
  - unfold dispatch. destruct (fromWebContents s sender) as [window|] eqn:Hw.
    + destruct r as [| |content name|content path|title].
      * apply Hnew.
      * rewrite (ipcMain_on_open _ _ _ window) by assumption.
        destruct (showOpenDialogSync env) as [[|? ?]|]; by left.
      * rewrite (ipcMain_on_save _ _ _ window) by assumption.
        destruct (showSaveDialogSync env) as [[|? ?]|]; by left.
      * rewrite (ipcMain_on_overwrite _ _ _ window) by assumption. by left.
      * unfold ipcMain_on. rewrite Hw. by left.
    + destruct r; unfold ipcMain_on; rewrite ?Hw; first [apply Hnew | by left].
  - destruct (pending s !! i) as [k|] eqn:Hk;
      [|unfold dispatch; rewrite Hk; by left].
    rewrite (dispatch_completed _ _ _ _ _ Hk).
    change (stateOf (tt, ?x, ?y)) with x. rewrite runCallback_state.
    destruct k, err; by left.
  - unfold stateOf. simpl. intros Hin. left. apply elem_of_difference in Hin. tauto.
  - rewrite dispatch_click. destruct (isReady s); [|by left].
    rewrite click_state. by left.
  - rewrite dispatch_open. case_decide; [apply Hnew | by left].
Qed.

(** Object identities are never handed out twice. *)
Lemma nextObject_step (s : State) (ev : Event) :
  (nextObject s ≤ nextObject (step s ev))%positive.
Proof.
  unfold step. destruct ev as [id|id|env sender r|i err data|w|item focused|opener id'].
  - rewrite dispatch_ready. destruct (isReady s); unfold stateOf; simpl; lia.
  - rewrite dispatch_activate.
    destruct (isReady s && bool_decide (size (allWindows s) = 0%nat));
      unfold stateOf; simpl; lia.
  - unfold dispatch.
    destruct (fromWebContents s sender) as [window|] eqn:Hw.
    + destruct r as [| |content name|content path|title].
      * unfold stateOf. simpl. lia.
      * rewrite (ipcMain_on_open _ _ _ window) by assumption.
        destruct (showOpenDialogSync env) as [[|? ?]|]; unfold stateOf; simpl; lia.
      * rewrite (ipcMain_on_save _ _ _ window) by assumption.
        destruct (showSaveDialogSync env) as [[|? ?]|]; unfold stateOf; simpl; lia.
      * rewrite (ipcMain_on_overwrite _ _ _ window) by assumption.
        unfold stateOf; simpl; lia.
      * unfold ipcMain_on. rewrite Hw. unfold stateOf; simpl; lia.
    + destruct r; unfold ipcMain_on; rewrite ?Hw; unfold stateOf; simpl; lia.
  - destruct (pending s !! i) as [k|] eqn:Hk;
      [|unfold dispatch; rewrite Hk; unfold stateOf; simpl; lia].
    rewrite (dispatch_completed _ _ _ _ _ Hk).
    change (nextObject s ≤ nextObject (stateOf (runCallback k err data (undefer i s))))%positive.
    rewrite runCallback_state. destruct k, err; simpl; lia.
  - unfold stateOf. simpl. lia.
  - rewrite dispatch_click. destruct (isReady s); [|unfold stateOf; simpl; lia].
    rewrite click_state. lia.
  - rewrite dispatch_open. case_decide; unfold stateOf; simpl; lia.
Qed.

(** An event that loads a page into a window has just created that window. *)
Lemma dispatch_LoadURL (s : State) (ev : Event) (w : positive) (url : string) :
  LoadURL w url ∈ effectsOf (dispatch ev s) →
  w = nextObject s ∧ (∀ w', ev ≠ Closed w') ∧
  effectsOf (dispatch ev s) = [LoadURL (nextObject s) url] ∧
  ∃ id, stateOf (dispatch ev s) = stateOf (createWindow id s) ∨
        stateOf (dispatch ev s) = setReady (stateOf (createWindow id s)).
Proof.
  intros Hin. destruct ev as [id|id|env sender r|i err data|w'|item focused|opener id'].
  - rewrite dispatch_ready in *. destruct (isReady s); [by apply elem_of_nil in Hin|].
    apply list_elem_of_singleton in Hin. injection Hin as -> ->.
    split; [reflexivity|]. split; [discriminate|]. split; [reflexivity|].
    exists id. by right.
  - rewrite dispatch_activate in *.
    destruct (isReady s && bool_decide (size (allWindows s) = 0%nat)).
    + apply list_elem_of_singleton in Hin. injection Hin as -> ->.
      split; [reflexivity|]. split; [discriminate|]. split; [reflexivity|].
      exists id. by left.
    + by apply elem_of_nil in Hin.
  - unfold dispatch in *. destruct r as [| |content name|content path|title].
    + apply list_elem_of_singleton in Hin. injection Hin as -> ->.
      split; [reflexivity|]. split; [discriminate|]. split; [reflexivity|].
      exists (freshId env). by left.
    + exfalso. destruct (fromWebContents s sender) as [window|] eqn:Hw.
      * rewrite (ipcMain_on_open _ _ _ window) in Hin by assumption.
        destruct (showOpenDialogSync env) as [[|? ?]|]; by member.
      * unfold ipcMain_on in Hin. rewrite Hw in Hin. by member.
    + exfalso. destruct (fromWebContents s sender) as [window|] eqn:Hw.
      * rewrite (ipcMain_on_save _ _ _ window) in Hin by assumption.
        destruct (showSaveDialogSync env) as [[|? ?]|]; by member.
      * unfold ipcMain_on in Hin. rewrite Hw in Hin. by member.
    + exfalso. destruct (fromWebContents s sender) as [window|] eqn:Hw.
      * rewrite (ipcMain_on_overwrite _ _ _ window) in Hin by assumption. by member.
      * unfold ipcMain_on in Hin. rewrite Hw in Hin. by member.
    + exfalso. unfold ipcMain_on in Hin.
      destruct (fromWebContents s sender); by member.
  - exfalso. destruct (pending s !! i) as [k|] eqn:Hk;
      [|unfold dispatch in Hin; rewrite Hk in Hin; by member].
    rewrite (dispatch_completed _ _ _ _ _ Hk) in Hin.
    apply runCallback_effects in Hin as [(? & ? & ?)|[(? & ?)|?]]; discriminate.
  - exfalso. by member.
  - exfalso. rewrite dispatch_click in Hin. destruct (isReady s); [|by member].
    apply click_effects in Hin as [(? & _ & ?)|?]; discriminate.
  - exfalso. rewrite dispatch_open in Hin. case_decide; by member.
Qed.

End Allocation.

(** ** The rendering surface *)
Section SurfaceFacts.
Import Ipc Renderer.
Variable marked_parse : string → string.

Lemma canonicalize_lower (c : ascii) :
  Path.canonicalize (Path.lower c) = Path.canonicalize c.
Proof. destruct c as [[] [] [] [] [] [] [] []]; reflexivity. Qed.

Lemma canon_lowercase (s : string) : Path.canon (Path.lowercase s) = Path.canon s.
Proof.
  induction s as [|c s IH]; simpl; [reflexivity|].
  by rewrite canonicalize_lower, IH.
Qed.

(** A suffix that reads [.md] or [.markdown] in lower case is one that the
    pattern of the export name matches. *)
Lemma md_suffix_here_lowercase (ext : string) :
  Path.lowercase ext = ".md" ∨ Path.lowercase ext = ".markdown" →
  Path.md_suffix_here ext = true.
Proof.
  intros H. apply md_suffix_here_canon.
  rewrite <- canon_lowercase. destruct H as [-> | ->]; [by left | by right].
Qed.

Lemma lower_canonicalize (c : ascii) : Path.lower (Path.canonicalize c) = Path.lower c.
Proof. destruct c as [[] [] [] [] [] [] [] []]; reflexivity. Qed.

Lemma lowercase_canon (s : string) : Path.lowercase (Path.canon s) = Path.lowercase s.
Proof.
  induction s as [|c s IH]; simpl; [reflexivity|].
  by rewrite lower_canonicalize, IH.
Qed.

Lemma md_suffix_here_iff (ext : string) :
  Path.md_suffix_here ext = true ↔
  Path.lowercase ext = ".md" ∨ Path.lowercase ext = ".markdown".
Proof.
  split; [|apply md_suffix_here_lowercase].
  intros H. apply md_suffix_here_canon in H.
  rewrite <- (lowercase_canon ext). destruct H as [-> | ->]; [by left | by right].
Qed.

Lemma strip_md_suffix_split (name : string) :
  ∃ stem ext,
    name = stem +:+ ext ∧ Path.strip_md_suffix name = stem ∧
    (Path.md_suffix_here ext = true ∨
     (ext = "" ∧ ∀ s e, name = s +:+ e → Path.md_suffix_here e = false)).
Proof.
  induction name as [|c name IH].
  - exists "", "". repeat split. right. split; [reflexivity|].
    intros s e H. destruct s; [|discriminate H].
    change ("" +:+ e) with e in H. rewrite <- H. reflexivity.
  - rewrite strip_md_suffix_unfold.
    destruct (Path.md_suffix_here (String c name)) eqn:Hm.
    + exists "", (String c name). repeat split. by left.
    + destruct IH as (stem & ext & Hn & Hs & Hext).
      exists (String c stem), ext.
      split; [change (String c stem +:+ ext) with (String c (stem +:+ ext)); by rewrite <- Hn|].
      split; [by rewrite Hs|].
      destruct Hext as [Hext | [-> Hno]]; [by left|]. right. split; [reflexivity|].
      intros s e H. destruct s as [|c' s].
      * change ("" +:+ e) with e in H. by rewrite <- H.
      * change (String c' s +:+ e) with (String c' (s +:+ e)) in H.
        injection H as _ H. by apply (Hno s e).
Qed.

Lemma onClick_enabled (handler : App → App * list Request) (a : App) :
  isSaving (saveStatus a) = false → onClick handler a = handler a.
Proof. intros H. unfold onClick. by rewrite H. Qed.

Lemma onClick_disabled (handler : App → App * list Request) (a : App) :
  isSaving (saveStatus a) = true → onClick handler a = (a, []).
Proof. intros H. unfold onClick. by rewrite H. Qed.

(** A disabled button changes nothing, so what a handler preserves a click
    preserves. *)
Lemma onClick_preserves {A} (f : App → A) (handler : App → App * list Request) (a : App) :
  f (fst (handler a)) = f a → f (fst (onClick handler a)) = f a.
Proof. intros H. unfold onClick. by destruct (isSaving (saveStatus a)). Qed.

Lemma saveFileDialog_fst (a : App) :
  fst (saveFileDialog a) = setSaveStatus (Some "Saving...") a.
Proof. unfold saveFileDialog. by destruct (fileName a) as [[|c p]|]. Qed.

Lemma handle_htmlMarkup (act : Action) (a : App) :
  htmlMarkup (fst (handle act a)) = htmlMarkup a.
Proof.
  destruct act as [| | | | | text | m |]; simpl;
    try (apply (onClick_preserves htmlMarkup)); try reflexivity.
  - by rewrite saveFileDialog_fst.
  - destruct m as [content name path|status saved| | |]; try reflexivity.
    + unfold handleSaveStatus. by destruct saved as [[[|c p] d]|].
    + by rewrite saveFileDialog_fst.
  - unfold statusTimer. by destruct (truthy (saveStatus a)).
Qed.

(** An action leaves the preview in step with the text. *)
Lemma step_rendered (act : Action) (a : App) :
  htmlMarkup a = marked_parse (markedText a) →
  htmlMarkup (fst (step marked_parse act a))
  = marked_parse (markedText (fst (step marked_parse act a))).
Proof.
  intros IH. unfold step. pose proof (handle_htmlMarkup act a) as Hh.
  destruct (handle act a) as [a1 out1]. simpl in Hh.
  unfold effects. case_decide as E; simpl; [|reflexivity].
  by rewrite Hh, IH, E.
Qed.

(** The preview shows the rendering of the text at every state of a surface. *)
Lemma reachable_rendered (a : App) :
  reachable marked_parse a → htmlMarkup a = marked_parse (markedText a).
Proof.
  induction 1 as [|a act _ IH]; [reflexivity | by apply step_rendered].
Qed.

(** The request of a command that changes nothing but the status line. *)
Lemma step_status_only (act : Action) (a a1 : App) (out : list Request) :
  handle act a = (a1, out) →
  markedText a1 = markedText a →
  displayFileName a1 = displayFileName a →
  step marked_parse act a = (a1, out).
Proof.
  intros H Hm Hd. unfold step, effects. rewrite H.
  rewrite !decide_True by done. by rewrite app_nil_r.
Qed.

(** A click on a disabled button is no event at all. *)
Lemma step_disabled (act : Action) (a : App) :
  isSaving (saveStatus a) = true →
  act ∈ [ClickNewWindow; ClickOpen; ClickSave; ClickExport; ClickNewDocument] →
  step marked_parse act a = (a, []).
Proof.
  intros H Hin. apply step_status_only; try reflexivity.
  apply list_elem_of_In in Hin. simpl in Hin.
  destruct Hin as [<-|[<-|[<-|[<-|[<-|[]]]]]]; simpl; by apply onClick_disabled.
Qed.

(** The save command, from the menu at any time and from the button when it is
    enabled. *)
Lemma step_save (a : App) :
  step marked_parse (Receive MenuSaveFile) a = saveFileDialog a ∧
  (isSaving (saveStatus a) = false → step marked_parse ClickSave a = saveFileDialog a).
Proof.
  assert (H : ∀ act, handle act a = saveFileDialog a →
                     step marked_parse act a = saveFileDialog a).
  { intros act E. destruct (saveFileDialog a) as [a1 out] eqn:E1.
    pose proof (saveFileDialog_fst a) as Hf. rewrite E1 in Hf. simpl in Hf.
    apply step_status_only; [exact E | by rewrite Hf | by rewrite Hf]. }
  split; [by apply H|]. intros Hs. apply H. simpl. by apply onClick_enabled.
Qed.

(** The export command, likewise. *)
Lemma step_export (a : App) :
  step marked_parse (Receive MenuExportHtml) a = exportHtmlDialog a ∧
  (isSaving (saveStatus a) = false → step marked_parse ClickExport a = exportHtmlDialog a).
Proof.
  split; [by apply step_status_only|].
  intros Hs. apply step_status_only; try reflexivity. simpl. by apply onClick_enabled.
Qed.

Lemma saveFileDialog_bound (a : App) (p : string) :
  fileName a = Some p → p ≠ "" →
  snd (saveFileDialog a) = [OverwriteFileRequest (markedText a) p].
Proof.
  intros H Hp. unfold saveFileDialog. rewrite H.
  destruct p; [contradiction | reflexivity].
Qed.

Lemma saveFileDialog_unbound (a : App) :
  truthy (fileName a) = false →
  snd (saveFileDialog a) = [SaveFileRequest (markedText a) (displayFileName a)].
Proof. intros H. unfold saveFileDialog. by rewrite H. Qed.

Lemma run_cons_fst (act : Action) (rest : list Action) (a : App) :
  fst (run marked_parse (act :: rest) a) =
  fst (run marked_parse rest (fst (step marked_parse act a))).
Proof.
  simpl. destruct (step marked_parse act a) as [a1 out1]. simpl.
  by destruct (run marked_parse rest a1).
Qed.

Lemma effects_fileName (before after : App) :
  fileName (fst (effects marked_parse before after)) = fileName after.
Proof. unfold effects. simpl. by case_decide. Qed.

Lemma step_keepsPath (act : Action) (a : App) :
  keepsPath act = true →
  fileName (fst (step marked_parse act a)) = fileName a.
Proof.
  intros Hk. unfold step.
  assert (Hh : fileName (fst (handle act a)) = fileName a).
  { assert (Hs : fileName (fst (saveFileDialog a)) = fileName a)
      by (by rewrite saveFileDialog_fst).
    destruct act as [| | | | | text | m |]; try discriminate Hk; simpl;
      try (apply (onClick_preserves fileName)); try reflexivity; try exact Hs.
    - destruct m as [content name path|status [saved|]| | |];
        try reflexivity; try discriminate Hk; exact Hs.
    - unfold statusTimer. by destruct (truthy (saveStatus a)). }
  destruct (handle act a) as [a1 out1]. simpl in Hh.
  pose proof (effects_fileName a a1) as He.
  destruct (effects marked_parse a a1) as [a2 out2]. simpl in *. congruence.
Qed.

(** A run of such actions leaves the record of the path as it was. *)
Lemma run_keepsPath (acts : list Action) (a : App) :
  forallb keepsPath acts = true →
  fileName (fst (run marked_parse acts a)) = fileName a.
Proof.
  revert a. induction acts as [|act acts IH]; intros a H; [reflexivity|].
  simpl in H. apply andb_true_iff in H as [H1 H2].
  rewrite run_cons_fst, IH by assumption. by apply step_keepsPath.
Qed.

Lemma step_opened (content name path : string) (a : App) :
  fileName (fst (step marked_parse (Receive (FileContentReady content name path)) a))
  = Some path.
Proof. unfold step, handle, effects. simpl. by repeat case_decide. Qed.

End SurfaceFacts.

(** ** Windows and their surfaces *)
Section BridgeFacts.
Import Ipc Main.
Variable marked_parse : string → string.

Lemma bridge_main_reachable (sys : Bridge.System) :
  Bridge.reachable marked_parse sys → Main.reachable (Bridge.main sys).
Proof.
  induction 1 as [|sys e _ IH]; [constructor|].
  destruct e as [ev|w act]; simpl.
  - by apply (Main.reachable_step _ ev).
  - by destruct (Bridge.surfaces sys !! w).
Qed.

Lemma bridge_run_reachable (sys : Bridge.System) (evs : list Bridge.Event) :
  Bridge.reachable marked_parse sys →
  Bridge.reachable marked_parse (Bridge.run marked_parse sys evs).
Proof.
  revert sys. induction evs as [|e evs IH]; intros sys H; simpl; [assumption|].
  apply IH. by constructor.
Qed.

Lemma bridge_nextObject_step (sys : Bridge.System) (e : Bridge.Event) :
  (nextObject (Bridge.main sys)
   ≤ nextObject (Bridge.main (Bridge.step marked_parse sys e)))%positive.
Proof.
  destruct e as [ev|w act]; simpl.
  - apply (nextObject_step (Bridge.main sys) ev).
  - destruct (Bridge.surfaces sys !! w); apply Pos.le_refl.
Qed.

Lemma bridge_nextObject_run (sys : Bridge.System) (evs : list Bridge.Event) :
  (nextObject (Bridge.main sys)
   ≤ nextObject (Bridge.main (Bridge.run marked_parse sys evs)))%positive.
Proof.
  revert sys. induction evs as [|e evs IH]; intros sys; [apply Pos.le_refl|].
  eapply Pos.le_trans; [apply (bridge_nextObject_step sys e)|].
  apply (IH (Bridge.step marked_parse sys e)).
Qed.

Lemma bridge_step_main_reachable (sys : Bridge.System) (e : Bridge.Event) :
  Main.reachable (Bridge.main sys) →
  Main.reachable (Bridge.main (Bridge.step marked_parse sys e)).
Proof.
  intros H. destruct e as [ev|w act]; simpl.
  - by apply (Main.reachable_step _ ev).
  - by destruct (Bridge.surfaces sys !! w).
Qed.

Lemma bridge_run_main_reachable (sys : Bridge.System) (evs : list Bridge.Event) :
  Main.reachable (Bridge.main sys) →
  Main.reachable (Bridge.main (Bridge.run marked_parse sys evs)).
Proof.
  revert sys. induction evs as [|e evs IH]; intros sys H; simpl; [assumption|].
  apply IH. by apply bridge_step_main_reachable.
Qed.

(** Closing a window: the platform forgets it, the listener takes it out of the
    set of open windows, its surface is gone, and the registry of paths is not
    touched. *)
Lemma bridge_step_closed (sys : Bridge.System) (w : positive) :
  Bridge.step marked_parse sys (Bridge.Platform (Closed w)) =
  Bridge.mkSystem (openWindows_delete w (destroy w (Bridge.main sys)))
                  (delete w (Bridge.surfaces sys)).
Proof. reflexivity. Qed.

End BridgeFacts.

(** ** Saving, exporting and closing *)
Section SurfaceProperties.
Import Ipc Main Renderer Samples.

(** The export of a surface whose display name is [Notes.MARKDOWN] suggests
    [Notes.html]: the pattern removes the suffix and leaves the rest of the name,
    capitals included, as it is. *)
Lemma export_keeps_case_of_stem :
  let a := setDisplayFileName "Notes.MARKDOWN" (fst (mount render)) in
  snd (Renderer.step render ClickExport a) =
    [SaveFileRequest (render defaultMarkdown) "Notes.html"] ∧
  defaultExportName "Notes.MARKDOWN" ≠ "notes.html".
Proof.
  split; [vm_compute; reflexivity|].
  intros H. vm_compute in H. discriminate H.
Qed.

(** C3 (amended). On a surface whose preview is the rendering of its text, the
    export command sends one [save-file-request], the request that a save
    without a known path sends, with the rendering of the current text as
    content and the export name of the display name as suggested name.  The
    menu runs the command at any time and the button whenever it is enabled; a
    click on the disabled button does nothing.  For every display name the
    export name is the name without a final [.md] or [.markdown], in any mix
    of upper and lower case, followed by [.html]: with such an ending the rest
    of the name is kept as it is, capitals included, and without one the whole
    name is kept.  It derives [report.html] from [report.md] and [Notes.html]
    from [Notes.MARKDOWN]. *)
Theorem export_html_request (marked_parse : string → string) (a : App) :
  htmlMarkup a = marked_parse (markedText a) →
  Renderer.step marked_parse (Receive MenuExportHtml) a =
    (setSaveStatus (Some "Exporting HTML...") a,
     [SaveFileRequest (marked_parse (markedText a))
                      (defaultExportName (displayFileName a))]) ∧
  (isSaving (saveStatus a) = false →
   Renderer.step marked_parse ClickExport a =
     (setSaveStatus (Some "Exporting HTML...") a,
      [SaveFileRequest (marked_parse (markedText a))
                       (defaultExportName (displayFileName a))])) ∧
  (isSaving (saveStatus a) = true → Renderer.step marked_parse ClickExport a = (a, [])) ∧
  (∀ b, fileName b = None →
     requestChannel <$> snd (saveFileDialog b) = ["save-file-request"] ∧
     requestChannel <$> snd (exportHtmlDialog b) = ["save-file-request"]) ∧
  (∀ name stem ext,
     name = stem +:+ ext →
     Path.lowercase ext = ".md" ∨ Path.lowercase ext = ".markdown" →
     defaultExportName name = stem +:+ ".html") ∧
  (∀ name,
     (∀ stem ext, name = stem +:+ ext →
                  Path.lowercase ext ≠ ".md" ∧ Path.lowercase ext ≠ ".markdown") →
     defaultExportName name = name +:+ ".html") ∧
  defaultExportName "report.md" = "report.html" ∧
  defaultExportName "Notes.MARKDOWN" = "Notes.html".
Proof.
  intros Hr.
  destruct (step_export marked_parse a) as [Hmenu Hbutton].
  assert (He : exportHtmlDialog a =
    (setSaveStatus (Some "Exporting HTML...") a,
     [SaveFileRequest (marked_parse (markedText a))
                      (defaultExportName (displayFileName a))])).
  { unfold exportHtmlDialog. by rewrite Hr. }
  split; [by rewrite Hmenu|].
  split; [intros Hs; by rewrite Hbutton|].
  split; [intros Hs; apply step_disabled; [exact Hs | apply list_elem_of_In; simpl; tauto]|].
  split; [intros b Hb; by rewrite saveFileDialog_unbound by (by rewrite Hb)|].
  split; [|split; [|by split]].
  - intros name stem ext -> Hext. unfold defaultExportName.
    by rewrite strip_md_suffix_match by (by apply md_suffix_here_lowercase).
  - intros name Hno. unfold defaultExportName.
    rewrite strip_md_suffix_no_match; [reflexivity|].
    intros stem ext Hn. apply not_true_is_false. intros Hm.
    apply md_suffix_here_iff in Hm. destruct (Hno stem ext Hn). tauto.
Qed.

Lemma export_html_request_witness :
  let a := fst (Renderer.step render
                  (Receive (FileContentReady "# n" "Notes.MARKDOWN" "/home/u/Notes.MARKDOWN"))
                  (fst (mount render))) in
  snd (Renderer.step render ClickExport a) =
    [SaveFileRequest (render "# n") "Notes.html"].
Proof.
  intros a.
  destruct (export_html_request render a) as (_ & H & _).
  - vm_compute. reflexivity.
  - rewrite H; [|vm_compute; reflexivity]. vm_compute. reflexivity.
Defined.

(** Window 1 opens [/home/u/a.md]; its surface receives the content, and the user
    then resets the editor with New Document.  The registry of the main process
    still binds window 1 to the path, and yet the save command asks for a
    save-as: the surface decides on its own record of the path. *)
Lemma save_after_new_document_prompts :
  let opened := FileContentReady "# a" "a.md" "/home/u/a.md" in
  let sys := Bridge.run render (Bridge.initial)
               [Bridge.Platform (Ready 1);
                Bridge.Platform (Message picks 1%positive OpenFileDialog);
                Bridge.Platform (Completed 0 None "# a");
                Bridge.Surface 1 (Receive opened);
                Bridge.Surface 1 ClickNewDocument] in
  effectsOf (dispatch (Completed 0 None "# a")
               (Main.run Main.initial [Ready 1; Message picks 1%positive OpenFileDialog]))
    = [Send 1 opened] ∧
  windowFilePaths (Bridge.main sys) !! 1%positive = Some "/home/u/a.md" ∧
  (λ a, snd (Renderer.step render ClickSave a)) <$> (Bridge.surfaces sys !! 1%positive)
    = Some [SaveFileRequest defaultMarkdown "Untitled.md"].
Proof. repeat split; vm_compute; reflexivity. Qed.

(** C2 (amended). The save command is routed by the rendering surface on its own
    record of the bound path, the state variable [fileName], which the last
    [file-content-ready] message or [save-status] message with a path set and
    which New Document clears: with a non-empty path in it the command sends an
    overwrite request for exactly that path, and no save-as request; with none,
    or with the empty string, it sends a save-as request with the current text
    and the display name as suggested name.  The menu runs the command at any time and the button
    whenever it is enabled; a click on the disabled button does nothing.  In
    particular, when the read of [p] completes for a window that is alive and
    its surface receives the content, and no other open, no end of a save-as
    and no New Document comes before the save, the save command asks to
    overwrite [p] and the gateway starts the write to [p]. *)
Theorem save_routed_by_surface (marked_parse : string → string) (s : State) (i : nat)
    (window : positive) (p data : string) (a : App) (acts : list Action) :
  p ≠ "" →
  pending s !! i = Some (OpenFileDone window p) →
  window ∈ allWindows s →
  forallb keepsPath acts = true →
  let opened := FileContentReady data (Path.basename p) p in
  let a' := fst (Renderer.run marked_parse (Receive opened :: acts) a) in
  dispatch (Completed i None data) s =
    (tt, windowFilePaths_set window p (undefer i s), [Send window opened]) ∧
  fileName a' = Some p ∧
  snd (Renderer.step marked_parse (Receive MenuSaveFile) a')
    = [OverwriteFileRequest (markedText a') p] ∧
  (isSaving (saveStatus a') = false →
   snd (Renderer.step marked_parse ClickSave a') = [OverwriteFileRequest (markedText a') p]) ∧
  (∀ env s', fromWebContents s' (webContents window) = Some window →
     effectsOf (dispatch (Message env (webContents window)
                            (OverwriteFileRequest (markedText a') p)) s')
     = [WriteFile p (markedText a')]) ∧
  (∀ b q, fileName b = Some q → q ≠ "" →
     snd (Renderer.step marked_parse (Receive MenuSaveFile) b)
       = [OverwriteFileRequest (markedText b) q] ∧
     (isSaving (saveStatus b) = false →
      snd (Renderer.step marked_parse ClickSave b) = [OverwriteFileRequest (markedText b) q])) ∧
  (∀ b, fileName b = None ∨ fileName b = Some "" →
     snd (Renderer.step marked_parse (Receive MenuSaveFile) b)
       = [SaveFileRequest (markedText b) (displayFileName b)] ∧
     (isSaving (saveStatus b) = false →
      snd (Renderer.step marked_parse ClickSave b)
        = [SaveFileRequest (markedText b) (displayFileName b)])) ∧
  (∀ b, isSaving (saveStatus b) = true → Renderer.step marked_parse ClickSave b = (b, [])).
Proof.
  intros Hp Hk Ha Hacts opened a'.
  assert (Hbound : ∀ b q, fileName b = Some q → q ≠ "" →
     snd (Renderer.step marked_parse (Receive MenuSaveFile) b)
       = [OverwriteFileRequest (markedText b) q] ∧
     (isSaving (saveStatus b) = false →
      snd (Renderer.step marked_parse ClickSave b) = [OverwriteFileRequest (markedText b) q])).
  { intros b q Hb Hq. destruct (step_save marked_parse b) as [Hmenu Hbutton].
    split; [|intros Hs; rewrite Hbutton by exact Hs]; [rewrite Hmenu|];
      by rewrite (saveFileDialog_bound b q). }
  assert (Hfile : fileName a' = Some p).
  { unfold a'. rewrite run_cons_fst, run_keepsPath by assumption. apply step_opened. }
  split; [|split; [|split; [|split; [|split; [|split; [|split]]]]]].
  - rewrite (dispatch_completed _ _ _ _ _ Hk). unfold runCallback.
    by rewrite openFileDone_alive.
  - exact Hfile.
  - by apply Hbound.
  - by apply Hbound.
  - intros env s' Hw. unfold dispatch.
    by rewrite (ipcMain_on_overwrite _ _ _ window).
  - exact Hbound.
  - intros b Hb. destruct (step_save marked_parse b) as [Hmenu Hbutton].
    assert (Hf : truthy (fileName b) = false) by (by destruct Hb as [-> | ->]).
    split; [|intros Hs; rewrite Hbutton by exact Hs]; [rewrite Hmenu|];
      by rewrite (saveFileDialog_unbound b).
  - intros b Hs. apply step_disabled; [exact Hs | apply list_elem_of_In; simpl; tauto].
Qed.

Lemma save_routed_by_surface_witness :
  let s := Main.run ready [Message picks 1%positive OpenFileDialog] in
  let a' := fst (Renderer.run render
                   [Receive (FileContentReady "# a" "a.md" "/home/u/a.md");
                    Typing "# a, b"; ClickNewWindow; Typing "# a, b, c"]
                   (fst (mount render))) in
  pending s !! 0%nat = Some (OpenFileDone 1 "/home/u/a.md") ∧
  dispatch (Completed 0 None "# a") s =
    (tt, windowFilePaths_set 1 "/home/u/a.md" (undefer 0 s),
     [Send 1 (FileContentReady "# a" "a.md" "/home/u/a.md")]) ∧
  snd (Renderer.step render ClickSave a') = [OverwriteFileRequest "# a, b, c" "/home/u/a.md"].
Proof.
  intros s a'.
  assert (Hk : pending s !! 0%nat = Some (OpenFileDone 1 "/home/u/a.md"))
    by (vm_compute; reflexivity).
  assert (Hp : "/home/u/a.md" ≠ "") by discriminate.
  assert (Ha : 1%positive ∈ allWindows s) by (vm_compute; reflexivity).
  destruct (save_routed_by_surface render s 0 1 "/home/u/a.md" "# a" (fst (mount render))
              [Typing "# a, b"; ClickNewWindow; Typing "# a, b, c"] Hp Hk Ha eq_refl)
    as (H1 & _ & _ & H3 & _).
  split; [exact Hk|]. split; [exact H1 | apply H3; vm_compute; reflexivity].
Defined.

(** Window 1 opens [/home/u/a.md], asks to overwrite it and is closed while the
    write is in flight: the set of open windows no longer holds the window, the
    callback of the write still refers to it, and the registry of paths still
    binds it to the path. *)
Lemma closed_window_keeps_registry_entry :
  let s := Main.run Main.initial
             [Ready 1; Message picks 1%positive OpenFileDialog; Completed 0 None "# a";
              Message picks 1%positive (OverwriteFileRequest "# a, b" "/home/u/a.md");
              Closed 1%positive] in
  (1%positive ∉ openWindows s) ∧
  pending s = [OverwriteDone 1 "/home/u/a.md"] ∧
  windowFilePaths s !! 1%positive = Some "/home/u/a.md".
Proof.
  split; [|split; vm_compute; reflexivity].
  intros H. vm_compute in H. discriminate H.
Qed.

(** C8 (amended). When a window is closed, the platform forgets it, the listener
    takes it out of the set of open windows and its surface is gone; handling
    the close a second time changes nothing.  The listener leaves the registry
    of paths as it is.  A window that comes into being afterwards, by whatever
    event and under whatever numeric id the platform gives it, is a new
    object: it differs from the closed window and the registry holds no path
    for it.  When it is [createWindow] that made it, it is among the open
    windows and its surface starts from the first render of [App], with the
    welcome text and no file. *)
Theorem closed_window_is_forgotten (marked_parse : string → string)
    (sys : Bridge.System) (w : positive) :
  Main.reachable (Bridge.main sys) →
  w ∈ allWindows (Bridge.main sys) →
  let closed := Bridge.step marked_parse sys (Bridge.Platform (Closed w)) in
  (w ∉ openWindows (Bridge.main closed)) ∧
  (w ∉ allWindows (Bridge.main closed)) ∧
  Bridge.surfaces closed !! w = None ∧
  windowFilePaths (Bridge.main closed) = windowFilePaths (Bridge.main sys) ∧
  Bridge.step marked_parse closed (Bridge.Platform (Closed w)) = closed ∧
  (∀ evs ev w',
     let later := Bridge.run marked_parse closed evs in
     let opened := Bridge.step marked_parse later (Bridge.Platform ev) in
     w' ∉ allWindows (Bridge.main later) →
     w' ∈ allWindows (Bridge.main opened) →
     w' ≠ w ∧ windowFilePaths (Bridge.main opened) !! w' = None) ∧
  (∀ evs ev w' url,
     let later := Bridge.run marked_parse closed evs in
     LoadURL w' url ∈ effectsOf (dispatch ev (Bridge.main later)) →
     let opened := Bridge.step marked_parse later (Bridge.Platform ev) in
     w' ≠ w ∧
     w' ∈ openWindows (Bridge.main opened) ∧
     windowFilePaths (Bridge.main opened) !! w' = None ∧
     Bridge.surfaces opened !! w' = Some (fst (mount marked_parse)) ∧
     markedText (fst (mount marked_parse)) = defaultMarkdown ∧
     fileName (fst (mount marked_parse)) = None).
Proof.
  intros Hr Hw closed.
  assert (Hc : closed = Bridge.mkSystem (openWindows_delete w (destroy w (Bridge.main sys)))
                                        (delete w (Bridge.surfaces sys))) by reflexivity.
  assert (Hlater : ∀ evs, Main.reachable (Bridge.main (Bridge.run marked_parse closed evs))).
  { intros evs. apply bridge_run_main_reachable.
    by apply (bridge_step_main_reachable marked_parse sys (Bridge.Platform (Closed w))). }
  assert (Hlt : ∀ evs,
            (w < nextObject (Bridge.main (Bridge.run marked_parse closed evs)))%positive).
  { intros evs. pose proof (reachable_allocated _ Hr) as (Hall & _). specialize (Hall w Hw).
    pose proof (bridge_nextObject_step marked_parse sys (Bridge.Platform (Closed w))).
    pose proof (bridge_nextObject_run marked_parse closed evs).
    subst closed. lia. }
  split; [|split; [|split; [|split; [|split; [|split]]]]].
  - rewrite Hc. simpl. apply not_elem_of_difference. right. by apply elem_of_singleton.
  - rewrite Hc. simpl. apply not_elem_of_difference. right. by apply elem_of_singleton.
  - rewrite Hc. simpl. apply lookup_delete_eq.
  - reflexivity.
  - rewrite bridge_step_closed, Hc. simpl. unfold openWindows_delete, destroy. simpl.
    by rewrite !difference_twice_L, !delete_delete_eq.
  - intros evs ev w' later opened Hold Hnew.
    change (Bridge.main opened) with (Main.step (Bridge.main later) ev) in *.
    apply step_allWindows in Hnew as [Hnew | ->]; [contradiction|].
    split; [specialize (Hlt evs); fold later in Hlt; lia|].
    apply step_registry_fresh, reachable_allocated, Hlater.
  - intros evs ev w' url later Hin opened.
    pose proof (reachable_allocated _ (Hlater evs)) as (_ & _ & Hreg & _).
    destruct (dispatch_LoadURL _ _ _ _ Hin) as (Hw' & Hnc & He & id & Hd).
    assert (Hlt' : (w < w')%positive) by (subst w'; apply Hlt).
    assert (Hopen : openWindows (Bridge.main opened)
                    = {[w']} ∪ openWindows (Bridge.main later)).
    { subst opened w'. simpl. by destruct Hd as [-> | ->]. }
    assert (Hpaths : windowFilePaths (Bridge.main opened)
                     = windowFilePaths (Bridge.main later)).
    { subst opened. simpl. by destruct Hd as [-> | ->]. }
    assert (Hsurf : Bridge.surfaces opened
                    = <[w' := fst (mount marked_parse)]> (Bridge.surfaces later)).
    { subst opened. simpl. rewrite He. subst w'.
      destruct ev; try reflexivity. by destruct (Hnc w0). }
    split; [lia|]. rewrite Hopen, Hpaths, Hsurf.
    split; [apply elem_of_union_l; by apply elem_of_singleton|].
    split; [|split; [apply lookup_insert_eq | split; reflexivity]].
    destruct (windowFilePaths (Bridge.main later) !! w') as [q|] eqn:E; [|reflexivity].
    assert (Hs : is_Some (windowFilePaths (Bridge.main later) !! w')) by (by exists q).
    specialize (Hreg w' Hs). subst w'. by apply Pos.lt_irrefl in Hreg.
Qed.

Lemma closed_window_is_forgotten_witness :
  let sys := Bridge.run render Bridge.initial
               [Bridge.Platform (Ready 1);
                Bridge.Platform (Message picks 1%positive OpenFileDialog);
                Bridge.Platform (Completed 0 None "# a");
                Bridge.Surface 1 (Receive (FileContentReady "# a" "a.md" "/home/u/a.md"))] in
  let closed := Bridge.step render sys (Bridge.Platform (Closed 1%positive)) in
  let opened := Bridge.step render closed (Bridge.Platform (Activate 1)) in
  windowFilePaths (Bridge.main closed) !! 1%positive = Some "/home/u/a.md" ∧
  windowId (Bridge.main opened) !! 2%positive = Some 1%nat ∧
  windowFilePaths (Bridge.main opened) !! 2%positive = None ∧
  Bridge.surfaces opened !! 2%positive = Some (fst (mount render)).
Proof.
  intros sys closed opened.
  assert (Hr : Main.reachable (Bridge.main sys)).
  { apply bridge_run_main_reachable. constructor. }
  assert (Hw : 1%positive ∈ allWindows (Bridge.main sys)) by (vm_compute; reflexivity).
  destruct (closed_window_is_forgotten render sys 1 Hr Hw) as (_ & _ & _ & _ & _ & _ & H).
  destruct (H [] (Activate 1) 2%positive "http://localhost:5173") as (_ & _ & H3 & H4 & _).
  { vm_compute. apply list_elem_of_singleton. reflexivity. }
  split; [vm_compute; reflexivity|]. split; [vm_compute; reflexivity|].
  split; [exact H3 | exact H4].
Defined.

End SurfaceProperties.

(** ** The registry and the file system, event by event *)
Section GatewayFrame.
Import Ipc Main Outcome Samples.

(** X1. An event changes the path that the registry holds for a window only if it
    is the completion, without error, of a read or of a save-as that this very
    window started; the new entry is then the path of that operation. *)
Theorem registry_changes_only_by_own_success (s : State) (ev : Event) (w : positive) :
  windowFilePaths (step s ev) !! w ≠ windowFilePaths s !! w →
  ∃ i data path,
    ev = Completed i None data ∧
    (pending s !! i = Some (OpenFileDone w path) ∨
     pending s !! i = Some (SaveFileDone w path)) ∧
    windowFilePaths (step s ev) !! w = Some path.
Proof.
  rewrite step_registry. intros Hne.
  destruct ev as [id|id|env sender r|i [e|] data|w'|item focused|opener id'];
    try by destruct Hne.
  destruct (pending s !! i) as [k|] eqn:Hk; [|by destruct Hne].
  destruct k as [w0 path|w0 path|w0 path]; simpl in *; try by destruct Hne.
  - destruct (decide (w0 = w)) as [->|Hw];
      [|by rewrite lookup_insert_ne in Hne by assumption].
    exists i, data, path. rewrite lookup_insert_eq. auto.
  - destruct (decide (w0 = w)) as [->|Hw];
      [|by rewrite lookup_insert_ne in Hne by assumption].
    exists i, data, path. rewrite lookup_insert_eq. auto.
Qed.

Lemma registry_changes_only_by_own_success_witness :
  let s := run ready [Message picks 1%positive (SaveFileRequest "# a" "Untitled.md")] in
  ∃ i data path,
    Completed 0 None "" = Completed i None data ∧
    (pending s !! i = Some (OpenFileDone 1 path) ∨
     pending s !! i = Some (SaveFileDone 1 path)) ∧
    windowFilePaths (step s (Completed 0 None "")) !! 1%positive = Some path.
Proof.
  intros s.
  apply (registry_changes_only_by_own_success s (Completed 0 None "") 1).
  vm_compute. discriminate.
Defined.

(** X2. When a file operation fails, whichever it is, its callback logs the error
    and then, if the window that started it is alive, sends that window one
    [save-status] message, made of the fixed text of the operation and the
    message of the error, with no path and no display name; if the window was
    destroyed meanwhile, the send throws and no message leaves.  In both cases
    the registry is left as it was, the operation is no longer pending and no
    file operation is started again. *)
Theorem failure_is_reported_once (s : State) (i : nat) (k : Callback) (e : Error)
    (data : string) :
  pending s !! i = Some k →
  dispatch (Completed i (Some e) data) s =
    (tt, undefer i s,
     [ConsoleError (failureLog k) e;
      if decide (callbackWindow k ∈ allWindows s)
      then Send (callbackWindow k) (SaveStatus (failureStatus k +:+ message e) None)
      else Uncaught destroyed]) ∧
  sends (effectsOf (dispatch (Completed i (Some e) data) s)) =
    (if decide (callbackWindow k ∈ allWindows s)
     then [(callbackWindow k, SaveStatus (failureStatus k +:+ message e) None)]
     else []) ∧
  windowFilePaths (step s (Completed i (Some e) data)) = windowFilePaths s ∧
  length (pending (step s (Completed i (Some e) data))) = pred (length (pending s)) ∧
  fileOps (effectsOf (dispatch (Completed i (Some e) data) s)) = [].
Proof.
  intros Hk.
  assert (E : dispatch (Completed i (Some e) data) s =
    (tt, undefer i s,
     [ConsoleError (failureLog k) e;
      if decide (callbackWindow k ∈ allWindows s)
      then Send (callbackWindow k) (SaveStatus (failureStatus k +:+ message e) None)
      else Uncaught destroyed])).
  { rewrite (dispatch_completed _ _ _ _ _ Hk).
    destruct (decide (callbackWindow k ∈ allWindows s)) as [Ha|Ha].
    - destruct k as [w p|w p|w p]; simpl in Ha; unfold runCallback.
      + by rewrite openFileDone_alive.
      + by rewrite saveFileDone_alive.
      + by rewrite overwriteDone_alive.
    - rewrite runCallback_destroyed by exact Ha. by destruct k. }
  unfold step. rewrite E. split; [reflexivity|].
  split; [by case_decide|]. split; [reflexivity|].
  split; [|by case_decide].
  unfold stateOf, undefer. simpl.
  pose proof (lookup_lt_Some _ _ _ Hk) as Hlt.
  rewrite length_app, length_take, length_drop. lia.
Qed.

Lemma failure_is_reported_once_witness :
  let s := run ready [Message picks 1%positive (SaveFileRequest "# a" "Untitled.md")] in
  sends (effectsOf (dispatch (Completed 0 (Some (mkError "EACCES: permission denied")) "") s))
    = [(1%positive, SaveStatus "Error saving file: EACCES: permission denied" None)] ∧
  windowFilePaths (step s (Completed 0 (Some (mkError "EACCES: permission denied")) ""))
    = windowFilePaths s.
Proof.
  intros s.
  assert (Hk : pending s !! 0%nat = Some (SaveFileDone 1 "/home/u/b.md"))
    by (vm_compute; reflexivity).
  destruct (failure_is_reported_once s 0 _ (mkError "EACCES: permission denied") "" Hk)
    as (_ & H1 & H2 & _).
  split; [rewrite H1; vm_compute; reflexivity | exact H2].
Defined.

(** X3. When the user dismisses the open dialog, or the dialog yields no file, the
    handler does nothing after showing it: no read is started, no message is
    sent, not even a status, and the state is what it was. *)
Theorem open_dialog_dismissed (env : Answers) (s : State) (sender window : positive) :
  fromWebContents s sender = Some window →
  showOpenDialogSync env = None ∨ showOpenDialogSync env = Some [] →
  dispatch (Message env sender OpenFileDialog) s = (tt, s, [ShowOpenDialogSync window]) ∧
  sends (effectsOf (dispatch (Message env sender OpenFileDialog) s)) = [] ∧
  fileOps (effectsOf (dispatch (Message env sender OpenFileDialog) s)) = [].
Proof.
  intros Hw Hd.
  assert (E : dispatch (Message env sender OpenFileDialog) s
              = (tt, s, [ShowOpenDialogSync window])).
  { unfold dispatch. rewrite (ipcMain_on_open _ _ _ window) by assumption.
    by destruct Hd as [-> | ->]. }
  rewrite E. repeat split.
Qed.

Lemma open_dialog_dismissed_witness :
  dispatch (Message dismisses 1%positive OpenFileDialog) ready
  = (tt, ready, [ShowOpenDialogSync 1]).
Proof.
  apply (open_dialog_dismissed dismisses ready 1 1); [vm_compute; reflexivity | by left].
Defined.

End GatewayFrame.

(** ** What every event does *)
Section GatewayEvents.
Import Ipc Main Outcome Samples.

Lemma fileOps_In (op : Effect) (es : list Effect) :
  op ∈ fileOps es →
  op ∈ es ∧ ((∃ p, op = ReadFile p) ∨ (∃ p c, op = WriteFile p c)).
Proof.
  unfold fileOps. rewrite !list_elem_of_In, filter_In. intros [Hin Hop].
  split; [assumption|]. destruct op; try discriminate Hop; eauto.
Qed.

(** X4. The main process touches the file system only to serve a request whose
    sender resolves to a window.  A read is started only by an open request, for
    the first file that the dialog yields; a write only by a save-as request, to
    the non-empty path that the dialog yields and never to the suggested name,
    or by an overwrite request, to the path that the request carries. *)
Theorem file_access_is_requested (s : State) (ev : Event) (op : Effect) :
  op ∈ fileOps (effectsOf (dispatch ev s)) →
  ∃ env sender r window,
    ev = Message env sender r ∧
    fromWebContents s sender = Some window ∧
    ((r = OpenFileDialog ∧
      ∃ path rest, showOpenDialogSync env = Some (path :: rest) ∧ op = ReadFile path) ∨
     (∃ content name path,
        r = SaveFileRequest content name ∧ showSaveDialogSync env = Some path ∧
        path ≠ "" ∧ op = WriteFile path content) ∨
     (∃ content path, r = OverwriteFileRequest content path ∧ op = WriteFile path content)).
Proof.
  intros Hop. apply fileOps_In in Hop as [Hin Hkind].
  destruct ev as [id|id|env sender r|i err data|w|item focused|opener id'].
  - exfalso. rewrite dispatch_ready in Hin. destruct (isReady s); by no_file_op.
  - exfalso. rewrite dispatch_activate in Hin.
    destruct (isReady s && bool_decide (size (allWindows s) = 0%nat)); by no_file_op.
  - exists env, sender, r. unfold dispatch in Hin.
    destruct (fromWebContents s sender) as [window|] eqn:Hw.
    + exists window. split; [reflexivity|]. split; [reflexivity|].
      destruct r as [| |content name|content path|title].
      * exfalso. by no_file_op.
      * left. split; [reflexivity|].
        rewrite (ipcMain_on_open _ _ _ window) in Hin by assumption.
        destruct (showOpenDialogSync env) as [[|f fs]|]; try (exfalso; by no_file_op).
        exists f, fs. split; [reflexivity|].
        apply list_elem_of_In in Hin. simpl in Hin.
        destruct Hin as [Hin|[Hin|[]]]; [|by symmetry].
        destruct Hkind as [[? ->]|(? & ? & ->)]; discriminate Hin.
      * right. left. exists content, name.
        rewrite (ipcMain_on_save _ _ _ window) in Hin by assumption.
        destruct (showSaveDialogSync env) as [[|c0 p0]|]; try (exfalso; by no_file_op).
        exists (String c0 p0). split; [reflexivity|]. split; [reflexivity|].
        split; [discriminate|].
        apply list_elem_of_In in Hin. simpl in Hin.
        destruct Hin as [Hin|[Hin|[]]]; [|by symmetry].
        destruct Hkind as [[? ->]|(? & ? & ->)]; discriminate Hin.
      * right. right. exists content, path. split; [reflexivity|].
        rewrite (ipcMain_on_overwrite _ _ _ window) in Hin by assumption.
        apply list_elem_of_singleton in Hin. exact Hin.
      * exfalso. unfold ipcMain_on in Hin. rewrite Hw in Hin. by no_file_op.
    + exfalso. destruct r; unfold ipcMain_on in Hin; rewrite ?Hw in Hin; by no_file_op.
  - exfalso. destruct (pending s !! i) as [k|] eqn:Hk;
      [|unfold dispatch in Hin; rewrite Hk in Hin; by no_file_op].
    rewrite (dispatch_completed _ _ _ _ _ Hk) in Hin.
    apply runCallback_effects in Hin as [(? & ? & ->)|[(? & ->)| ->]];
      by destruct Hkind as [[? ?]|(? & ? & ?)].
  - exfalso. by no_file_op.
  - exfalso. rewrite dispatch_click in Hin. destruct (isReady s); [|by no_file_op].
    apply click_effects in Hin as [(? & _ & ->)| ->];
      by destruct Hkind as [[? ?]|(? & ? & ?)].
  - exfalso. rewrite dispatch_open in Hin. case_decide; by no_file_op.
Qed.

Lemma file_access_is_requested_witness :
  ∃ env sender r window,
    Message picks 1%positive (SaveFileRequest "# a" "Untitled.md") = Message env sender r ∧
    fromWebContents ready sender = Some window ∧
    ((r = OpenFileDialog ∧
      ∃ path rest, showOpenDialogSync env = Some (path :: rest) ∧
                   WriteFile "/home/u/b.md" "# a" = ReadFile path) ∨
     (∃ content name path,
        r = SaveFileRequest content name ∧ showSaveDialogSync env = Some path ∧
        path ≠ "" ∧ WriteFile "/home/u/b.md" "# a" = WriteFile path content) ∨
     (∃ content path, r = OverwriteFileRequest content path ∧
                      WriteFile "/home/u/b.md" "# a" = WriteFile path content)).
Proof.
  apply (file_access_is_requested ready
           (Message picks 1%positive (SaveFileRequest "# a" "Untitled.md"))
           (WriteFile "/home/u/b.md" "# a")).
  vm_compute. apply list_elem_of_singleton. reflexivity.
Defined.

Lemma step_open_windows (s : State) (ev : Event) :
  openWindows s ⊆ allWindows s → openWindows (step s ev) ⊆ allWindows (step s ev).
Proof.
  intros H.
  assert (Hnew : ({[nextObject s]} ∪ openWindows s : gset positive)
                 ⊆ {[nextObject s]} ∪ allWindows s) by (by apply union_mono_l).
  unfold step. destruct ev as [id|id|env sender r|i err data|w|item focused|opener id'].
  - rewrite dispatch_ready. destruct (isReady s); [exact H | exact Hnew].
  - rewrite dispatch_activate.
    destruct (isReady s && bool_decide (size (allWindows s) = 0%nat)); [exact Hnew | exact H].
  - unfold dispatch. destruct (fromWebContents s sender) as [window|] eqn:Hw.
    + destruct r as [| |content name|content path|title].
      * exact Hnew.
      * rewrite (ipcMain_on_open _ _ _ window) by assumption.
        destruct (showOpenDialogSync env) as [[|? ?]|]; exact H.
      * rewrite (ipcMain_on_save _ _ _ window) by assumption.
        destruct (showSaveDialogSync env) as [[|? ?]|]; exact H.
      * rewrite (ipcMain_on_overwrite _ _ _ window) by assumption. exact H.
      * unfold ipcMain_on. rewrite Hw. exact H.
    + destruct r; unfold ipcMain_on; rewrite ?Hw; first [exact Hnew | exact H].
  - destruct (pending s !! i) as [k|] eqn:Hk;
      [|unfold dispatch; rewrite Hk; exact H].
    rewrite (dispatch_completed _ _ _ _ _ Hk).
    change (stateOf (tt, ?x, ?y)) with x. rewrite runCallback_state.
    destruct k, err; exact H.
  - unfold stateOf. simpl. intros x Hx. apply elem_of_difference in Hx as [Hx Hne].
    apply elem_of_difference. split; [by apply H | exact Hne].
  - rewrite dispatch_click. destruct (isReady s); [|exact H].
    rewrite click_state. exact H.
  - rewrite dispatch_open. case_decide; [|exact H].
    unfold stateOf. simpl. intros x Hx. apply elem_of_union_r. by apply H.
Qed.

(** X5. Every window in the set of open windows that main.js keeps for itself is
    a window that the platform reports: [createWindow] adds a window to both,
    and the [closed] listener removes it from the one when the platform has
    removed it from the other.  The platform may report more: a window that it
    made for [window.open] of a page is in no set of main.js. *)
Theorem open_windows_are_live (s : State) :
  Main.reachable s →
  openWindows s ⊆ allWindows s ∧
  (∀ opener id,
     opener ∈ allWindows s →
     nextObject s ∈ allWindows (step s (WindowOpen opener id)) ∧
     nextObject s ∉ openWindows (step s (WindowOpen opener id))).
Proof.
  intros Hr. split.
  - induction Hr as [|s ev _ IH]; [done | by apply step_open_windows].
  - intros opener id Ho. unfold step. rewrite dispatch_open, decide_True by exact Ho.
    unfold stateOf. simpl. split; [apply elem_of_union_l; by apply elem_of_singleton|].
    intros Hin. destruct (reachable_allocated s Hr) as (_ & Hopen & _).
    specialize (Hopen _ Hin). lia.
Qed.

Lemma open_windows_are_live_witness :
  let s := run Main.initial
             [Ready 1; Message picks 1%positive NewWindowRequest; Closed 1%positive;
              WindowOpen 2 7] in
  openWindows s ⊆ allWindows s ∧ 3%positive ∈ allWindows s ∧ 3%positive ∉ openWindows s.
Proof.
  intros s.
  destruct (open_windows_are_live s) as [H _]; [apply reachable_run; constructor|].
  split; [exact H|]. split; [vm_compute; reflexivity|].
  intros Hin. vm_compute in Hin. discriminate Hin.
Defined.

(** X6. The [activate] listener exists once the application is ready; before,
    activation does nothing.  From then on activation never opens a second
    window: with a window alive it does nothing at all, and with none it creates
    exactly one, so that a window is alive afterwards in both cases. *)
Theorem activate_keeps_one_window (s : State) (id : nat) :
  (isReady s = false → dispatch (Activate id) s = (tt, s, [])) ∧
  (isReady s = true → allWindows s ≠ ∅ → dispatch (Activate id) s = (tt, s, [])) ∧
  (isReady s = true → allWindows s = ∅ →
   allWindows (step s (Activate id)) = {[nextObject s]} ∧
   effectsOf (dispatch (Activate id) s) = [LoadURL (nextObject s) "http://localhost:5173"]) ∧
  (isReady s = true → allWindows (step s (Activate id)) ≠ ∅).
Proof.
  assert (Hsome : isReady s = true → allWindows s ≠ ∅ →
                  dispatch (Activate id) s = (tt, s, [])).
  { intros Hr Hne. rewrite dispatch_activate, Hr. simpl.
    case_bool_decide as Hz; [|reflexivity].
    by apply size_empty_iff, leibniz_equiv in Hz. }
  assert (Hnone : isReady s = true → allWindows s = ∅ →
    allWindows (step s (Activate id)) = {[nextObject s]} ∧
    effectsOf (dispatch (Activate id) s) = [LoadURL (nextObject s) "http://localhost:5173"]).
  { intros Hr He. unfold step. rewrite dispatch_activate, Hr. simpl.
    rewrite bool_decide_eq_true_2 by (by rewrite He).
    unfold stateOf, effectsOf. simpl. rewrite He. split; [|reflexivity].
    by rewrite (right_id_L ∅ (∪)). }
  split; [|split; [exact Hsome|split; [exact Hnone|]]].
  - intros Hr. by rewrite dispatch_activate, Hr.
  - intros Hr. destruct (decide (allWindows s = ∅)) as [He|Hne].
    + destruct (Hnone Hr He) as [-> _]. intros Hx.
      assert (Hin : nextObject s ∈ ({[nextObject s]} : gset positive))
        by (by apply elem_of_singleton).
      rewrite Hx in Hin. by apply not_elem_of_empty in Hin.
    + unfold step. by rewrite (Hsome Hr Hne).
Qed.

(** X7. A request for a new window is served whoever sent it, also when the
    sender no longer resolves to a window.  In a state that the program can
    reach it adds exactly one window, which was not open before, loads the page
    into it, and leaves the registry of paths and the pending file operations
    as they were. *)
Theorem new_window_request_adds_one (env : Answers) (s : State) (sender : positive) :
  Main.reachable s →
  dispatch (Message env sender NewWindowRequest) s =
    (tt, stateOf (createWindow (freshId env) s),
     [LoadURL (nextObject s) "http://localhost:5173"]) ∧
  (nextObject s ∉ openWindows s) ∧
  openWindows (step s (Message env sender NewWindowRequest)) = {[nextObject s]} ∪ openWindows s ∧
  windowFilePaths (step s (Message env sender NewWindowRequest)) = windowFilePaths s ∧
  pending (step s (Message env sender NewWindowRequest)) = pending s.
Proof.
  intros Hr. split; [reflexivity|]. split; [|repeat split].
  intros Hin. destruct (reachable_allocated s Hr) as (_ & Ho & _).
  specialize (Ho _ Hin). lia.
Qed.

Lemma new_window_request_adds_one_witness :
  openWindows (step closed1 (Message picks 1%positive NewWindowRequest)) = {[2%positive]} ∪ ∅.
Proof.
  assert (Hr : Main.reachable closed1) by (apply reachable_run; constructor).
  destruct (new_window_request_adds_one picks closed1 1 Hr) as (_ & _ & H & _).
  exact H.
Defined.

Lemma scan_no_sep (cs acc : list ascii) (b : bool) :
  Forall (fun c => c ≠ Path.sep) acc → Forall (fun c => c ≠ Path.sep) (Path.scan cs b acc).
Proof.
  revert b acc. induction cs as [|c cs IH]; intros b acc Hacc; simpl; [assumption|].
  destruct (Ascii.eqb_spec c Path.sep) as [->|Hc].
  - destruct b; [by apply IH | assumption].
  - apply IH. by constructor.
Qed.

(** X10. No event makes the main process send more than one message.  The display
    name that a message carries beside a path is always [path.basename] of
    that path, and it contains no directory separator. *)
Theorem messages_carry_base_names (s : State) (ev : Event) :
  (length (sends (effectsOf (dispatch ev s))) ≤ 1)%nat ∧
  (∀ w content name path,
     (w, FileContentReady content name path) ∈ sends (effectsOf (dispatch ev s)) →
     name = Path.basename path) ∧
  (∀ w status path name,
     (w, SaveStatus status (Some (path, name))) ∈ sends (effectsOf (dispatch ev s)) →
     name = Path.basename path) ∧
  (∀ path, Forall (fun c => c ≠ Path.sep) (list_ascii_of_string (Path.basename path))).
Proof.
  assert (Hmsg : ∀ w m, (w, m) ∈ sends (effectsOf (dispatch ev s)) →
            match m with
            | FileContentReady _ name path => name = Path.basename path
            | SaveStatus _ (Some (path, name)) => name = Path.basename path
            | _ => True
            end).
  { intros w m Hin.
    destruct ev as [id|id|env sender r|i err data|w'|item focused|opener id'].
    - rewrite dispatch_ready in Hin. destruct (isReady s); one_message.
    - rewrite dispatch_activate in Hin.
      destruct (isReady s && bool_decide (size (allWindows s) = 0%nat)); one_message.
    - unfold dispatch in Hin. destruct (fromWebContents s sender) as [window|] eqn:Hw.
      + destruct r as [| |c0 n0|c0 p0|t0].
        * one_message.
        * rewrite (ipcMain_on_open _ _ _ window) in Hin by assumption.
          destruct (showOpenDialogSync env) as [[|? ?]|]; one_message.
        * rewrite (ipcMain_on_save _ _ _ window) in Hin by assumption.
          destruct (showSaveDialogSync env) as [[|? ?]|]; one_message.
        * rewrite (ipcMain_on_overwrite _ _ _ window) in Hin by assumption. one_message.
        * unfold ipcMain_on in Hin. rewrite Hw in Hin. one_message.
      + destruct r; unfold ipcMain_on in Hin; rewrite ?Hw in Hin; one_message.
    - destruct (pending s !! i) as [k|] eqn:Hk;
        [|unfold dispatch in Hin; rewrite Hk in Hin; one_message].
      rewrite (dispatch_completed _ _ _ _ _ Hk) in Hin.
      destruct (decide (callbackWindow k ∈ allWindows (undefer i s))) as [Ha|Ha].
      + destruct k as [w0 p0|w0 p0|w0 p0]; unfold runCallback in Hin; simpl in Ha;
          [rewrite openFileDone_alive in Hin by exact Ha
          |rewrite saveFileDone_alive in Hin by exact Ha
          |rewrite overwriteDone_alive in Hin by exact Ha];
          destruct err; one_message.
      + rewrite runCallback_destroyed in Hin by exact Ha. destruct k, err; one_message.
    - one_message.
    - rewrite dispatch_click in Hin. destruct (isReady s); [|one_message].
      destruct focused as [f|]; [|one_message]. unfold click, send in Hin.
      case_decide; destruct item; one_message.
    - rewrite dispatch_open in Hin. case_decide; one_message. }
  split; [|split; [|split]].
  - destruct ev as [id|id|env sender r|i err data|w|item focused|opener id'].
    + rewrite dispatch_ready. destruct (isReady s); simpl; lia.
    + rewrite dispatch_activate.
      destruct (isReady s && bool_decide (size (allWindows s) = 0%nat)); simpl; lia.
    + apply (ipcMain_on_addressing env s sender r).
    + destruct (pending s !! i) as [k|] eqn:Hk;
        [|unfold dispatch; rewrite Hk; simpl; lia].
      rewrite (dispatch_completed _ _ _ _ _ Hk).
      change (effectsOf (tt, ?x, ?y)) with y.
      destruct (runCallback_sends k err data (undefer i s)) as [m ->].
      case_decide; simpl; lia.
    + simpl. lia.
    + rewrite dispatch_click. destruct (isReady s); [|simpl; lia].
      destruct focused as [f|]; [|simpl; lia]. unfold click, send.
      case_decide; simpl; lia.
    + rewrite dispatch_open. case_decide; simpl; lia.
  - intros w content name path Hin. exact (Hmsg _ _ Hin).
  - intros w status path name Hin. exact (Hmsg _ _ Hin).
  - intros path. unfold Path.basename.
    rewrite list_ascii_of_string_of_list_ascii. apply scan_no_sep. constructor.
Qed.

End GatewayEvents.

(** ** The document of a surface *)
Section SurfaceInvariants.
Import Ipc Main Renderer View Outcome Samples.

Lemma run_reachable (marked_parse : string → string) (acts : list Action) (a : App) :
  Renderer.reachable marked_parse a →
  Renderer.reachable marked_parse (fst (Renderer.run marked_parse acts a)).
Proof.
  revert a. induction acts as [|act acts IH]; intros a Ha; [assumption|].
  rewrite run_cons_fst. apply IH. by constructor.
Qed.

Lemma run_cons_snd (marked_parse : string → string) (act : Action) (rest : list Action)
    (a : App) :
  snd (Renderer.run marked_parse (act :: rest) a) =
  (snd (Renderer.step marked_parse act a)
   ++ snd (Renderer.run marked_parse rest (fst (Renderer.step marked_parse act a))))%list.
Proof.
  simpl. destruct (Renderer.step marked_parse act a) as [a1 out1]. simpl.
  by destruct (Renderer.run marked_parse rest a1).
Qed.

(** X8. Whatever the user and the main process do to a surface, after every
    action its preview is the rendering of its current text. *)
Theorem preview_follows_text (marked_parse : string → string) (acts : list Action) :
  htmlMarkup (fst (Renderer.run marked_parse acts (fst (mount marked_parse)))) =
  marked_parse (markedText (fst (Renderer.run marked_parse acts (fst (mount marked_parse))))).
Proof.
  apply reachable_rendered, run_reachable. constructor.
Qed.

Lemma handle_titles (act : Action) (a : App) : titles (snd (handle act a)) = [].
Proof.
  assert (Hs : titles (snd (saveFileDialog a)) = []).
  { unfold saveFileDialog. by destruct (fileName a) as [[|c p]|]. }
  destruct act as [| | | | | text | m |]; simpl; try reflexivity;
    try (unfold onClick; destruct (isSaving (saveStatus a));
         [reflexivity | first [reflexivity | exact Hs]]).
  destruct m as [content name path|status saved| | |]; try reflexivity. exact Hs.
Qed.

Lemma titles_app (x y : list Request) : titles (x ++ y) = (titles x ++ titles y)%list.
Proof. unfold titles. apply omap_app. Qed.

Lemma step_titles (marked_parse : string → string) (act : Action) (a : App) :
  let r := Renderer.step marked_parse act a in
  (titles (snd r) = [] ∧ displayFileName (fst r) = displayFileName a) ∨
  titles (snd r) = [windowTitle (fst r)].
Proof.
  unfold Renderer.step. pose proof (handle_titles act a) as Ht.
  destruct (handle act a) as [a1 out1]. simpl in Ht.
  unfold effects. simpl. rewrite titles_app, Ht.
  destruct (decide (displayFileName a = displayFileName a1)) as [E|E].
  - left. split; [reflexivity|]. by case_decide.
  - right. by case_decide.
Qed.

Lemma run_titles (marked_parse : string → string) (acts : list Action) (a : App)
    (sent : list string) :
  last sent = Some (windowTitle a) →
  last (sent ++ titles (snd (Renderer.run marked_parse acts a)))
  = Some (windowTitle (fst (Renderer.run marked_parse acts a))).
Proof.
  revert a sent. induction acts as [|act acts IH]; intros a sent Hs.
  - simpl. by rewrite app_nil_r.
  - rewrite run_cons_snd, run_cons_fst, titles_app, app_assoc. apply IH.
    destruct (step_titles marked_parse act a) as [[-> Hd] | ->].
    + rewrite app_nil_r, Hs. unfold windowTitle. by rewrite Hd.
    + by rewrite last_snoc.
Qed.

(** X9. The last title that a surface has asked for is always its current display
    name followed by " - Markdown Editor", and the main process sets a title
    that a live window asks for on that window and does nothing else. *)
Theorem window_title_follows_display_name (marked_parse : string → string)
    (acts : list Action) :
  last (titles (snd (mount marked_parse)
                ++ snd (Renderer.run marked_parse acts (fst (mount marked_parse)))))
  = Some (displayFileName (fst (Renderer.run marked_parse acts (fst (mount marked_parse))))
          +:+ " - Markdown Editor") ∧
  (∀ env s w title,
     w ∈ allWindows s →
     dispatch (Message env (webContents w) (UpdateWindowTitle title)) s
     = (tt, s, [SetTitle w title])).
Proof.
  split.
  - rewrite titles_app. by apply run_titles.
  - intros env s w title Hw. unfold dispatch, ipcMain_on.
    by rewrite (fromWebContents_webContents s w Hw).
Qed.

(** X11. On a surface whose preview is the rendering of its text, New Document,
    when its button is enabled, takes the surface back to its first render: the
    welcome text and its preview, no path, the name [Untitled.md]; only the
    status line tells the difference.  The save command that follows, from the
    button, which is enabled then, or from the menu, asks for a save-as.  While
    the button is disabled a click on it does nothing. *)
Theorem new_document_resets (marked_parse : string → string) (a : App) :
  htmlMarkup a = marked_parse (markedText a) →
  (isSaving (saveStatus a) = false →
   fst (Renderer.step marked_parse ClickNewDocument a)
   = setSaveStatus (Some "Editor reset.") (fst (mount marked_parse)) ∧
   snd (Renderer.step marked_parse ClickSave
          (fst (Renderer.step marked_parse ClickNewDocument a)))
   = [SaveFileRequest defaultMarkdown "Untitled.md"] ∧
   snd (Renderer.step marked_parse (Receive MenuSaveFile)
          (fst (Renderer.step marked_parse ClickNewDocument a)))
   = [SaveFileRequest defaultMarkdown "Untitled.md"]) ∧
  (isSaving (saveStatus a) = true →
   Renderer.step marked_parse ClickNewDocument a = (a, [])).
Proof.
  intros Ha. split.
  - intros Hs.
    assert (E : fst (Renderer.step marked_parse ClickNewDocument a)
                = setSaveStatus (Some "Editor reset.") (fst (mount marked_parse))).
    { pose proof (step_rendered marked_parse ClickNewDocument a Ha) as Hh.
      assert (Hf : markedText (fst (Renderer.step marked_parse ClickNewDocument a))
                   = defaultMarkdown ∧
                   fileName (fst (Renderer.step marked_parse ClickNewDocument a)) = None ∧
                   displayFileName (fst (Renderer.step marked_parse ClickNewDocument a))
                   = "Untitled.md" ∧
                   saveStatus (fst (Renderer.step marked_parse ClickNewDocument a))
                   = Some "Editor reset.").
      { unfold Renderer.step, handle. rewrite onClick_enabled by exact Hs.
        unfold effects. simpl. by case_decide. }
      destruct (fst (Renderer.step marked_parse ClickNewDocument a)) as [mt hm fn dn st].
      simpl in Hf, Hh. destruct Hf as (-> & -> & -> & ->). by rewrite Hh. }
    split; [exact E|]. rewrite E.
    destruct (step_save marked_parse
                (setSaveStatus (Some "Editor reset.") (fst (mount marked_parse))))
      as [-> ->]; [by split | reflexivity].
  - intros Hs. apply step_disabled; [exact Hs | apply list_elem_of_In; simpl; tauto].
Qed.

Lemma new_document_resets_witness :
  let a := fst (Renderer.run render
                  [Receive (FileContentReady "# a" "a.md" "/home/u/a.md"); Typing "# b"]
                  (fst (mount render))) in
  fst (Renderer.step render ClickNewDocument a)
  = setSaveStatus (Some "Editor reset.") (fst (mount render)).
Proof.
  intros a.
  destruct (new_document_resets render a) as [H _]; [vm_compute; reflexivity|].
  destruct H as [H _]; [vm_compute; reflexivity | exact H].
Defined.

(** X12. A status without a path changes the status line of the surface and
    nothing else: the text, the preview, the path and the display name stay,
    and the surface sends nothing.  Such is the one message that the failure
    of a file operation sends to a window that is alive, and the one message
    that a save dialog which the user dismissed makes the handler send. *)
Theorem failure_keeps_document (marked_parse : string → string) (s : State) (i : nat)
    (k : Callback) (e : Error) (data : string) (a : App) :
  pending s !! i = Some k →
  callbackWindow k ∈ allWindows s →
  (∃ status,
     sends (effectsOf (dispatch (Completed i (Some e) data) s))
     = [(callbackWindow k, SaveStatus status None)] ∧
     Renderer.step marked_parse (Receive (SaveStatus status None)) a
     = (setSaveStatus (Some status) a, [])) ∧
  (∀ env s' sender window content defaultFileName,
     fromWebContents s' sender = Some window →
     truthy (showSaveDialogSync env) = false →
     ∃ status,
       sends (effectsOf (dispatch (Message env sender
                                     (SaveFileRequest content defaultFileName)) s'))
       = [(window, SaveStatus status None)] ∧
       Renderer.step marked_parse (Receive (SaveStatus status None)) a
       = (setSaveStatus (Some status) a, [])).
Proof.
  intros Hk Ha. split.
  - exists (failureStatus k +:+ message e).
    rewrite (dispatch_completed _ _ _ _ _ Hk).
    split; [|by apply step_status_only].
    destruct k as [w p|w p|w p]; simpl in Ha; unfold runCallback.
    + by rewrite openFileDone_alive.
    + by rewrite saveFileDone_alive.
    + by rewrite overwriteDone_alive.
  - intros env s' sender window content defaultFileName Hw Hc.
    exists "Save As operation cancelled.".
    split; [|by apply step_status_only].
    unfold dispatch. rewrite (ipcMain_on_save _ _ _ window) by assumption.
    destruct (showSaveDialogSync env) as [[|c p]|]; simpl in Hc; by try discriminate Hc.
Qed.

Lemma failure_keeps_document_witness :
  let s := Main.run ready
             [Message picks 1%positive (OverwriteFileRequest "# a" "/home/u/a.md")] in
  let a := fst (Renderer.step render (Typing "# a") (fst (mount render))) in
  ∃ status,
    sends (effectsOf (dispatch (Completed 0 (Some (mkError "ENOSPC")) "") s))
    = [(1%positive, SaveStatus status None)] ∧
    Renderer.step render (Receive (SaveStatus status None)) a
    = (setSaveStatus (Some status) a, []).
Proof.
  intros s a.
  assert (Hk : pending s !! 0%nat = Some (OverwriteDone 1 "/home/u/a.md"))
    by (vm_compute; reflexivity).
  assert (Ha : callbackWindow (OverwriteDone 1 "/home/u/a.md") ∈ allWindows s)
    by (vm_compute; reflexivity).
  destruct (failure_keeps_document render s 0 _ (mkError "ENOSPC") "" a Hk Ha)
    as ((status & H1 & H2) & _).
  exists status. by split.
Defined.

End SurfaceInvariants.

(** ** Export *)
Section ExportFacts.
Import Ipc Main Renderer View Samples.

(** X13. For every display name the export name is a part of the name followed by
    [.html].  What is left out is either nothing, when no ending of the name
    reads [.md] or [.markdown] in any case, or exactly one such ending: of a
    name that has two, as [a.md.md], only the last goes, and an exported name
    such as [report.html] is given a second [.html]. *)
Theorem export_name_shape (name : string) :
  ∃ stem ext,
    name = stem +:+ ext ∧
    defaultExportName name = stem +:+ ".html" ∧
    ((ext = "" ∧
      ∀ s e, name = s +:+ e →
             Path.lowercase e ≠ ".md" ∧ Path.lowercase e ≠ ".markdown") ∨
     Path.lowercase ext = ".md" ∨ Path.lowercase ext = ".markdown").
Proof.
  destruct (strip_md_suffix_split name) as (stem & ext & Hn & Hs & Hext).
  exists stem, ext. split; [exact Hn|]. split; [unfold defaultExportName; by rewrite Hs|].
  destruct Hext as [Hext | [-> Hno]].
  - right. by apply md_suffix_here_iff.
  - left. split; [reflexivity|]. intros s e H.
    specialize (Hno s e H).
    split; intros He; assert (Ht : Path.md_suffix_here e = true)
      by (apply md_suffix_here_iff; auto); congruence.
Qed.

Lemma step_saved (marked_parse : string → string) (status path name : string) (a : App) :
  path ≠ "" →
  fileName (fst (Renderer.step marked_parse (Receive (SaveStatus status (Some (path, name)))) a))
    = Some path ∧
  displayFileName
    (fst (Renderer.step marked_parse (Receive (SaveStatus status (Some (path, name)))) a))
    = name ∧
  markedText (fst (Renderer.step marked_parse (Receive (SaveStatus status (Some (path, name)))) a))
    = markedText a.
Proof.
  intros Hp. destruct path as [|c p]; [contradiction|].
  unfold Renderer.step, handle, handleSaveStatus, effects. simpl.
  by repeat case_decide.
Qed.

(** X14. After an export the surface takes the exported file for its document.
    The export command sends the preview as the content of a save-as request;
    when the user has chosen a path, the write has succeeded and the window is
    still alive, the status that comes back makes the surface adopt that path
    and its base name, and the next save command asks to overwrite the
    exported file with the markdown text.  The commands come from the menu at
    any time and from the buttons whenever these are enabled. *)
Theorem export_rebinds_document (marked_parse : string → string) (env : Answers)
    (s : State) (window : positive) (a : App) (path : string) :
  fromWebContents s (webContents window) = Some window →
  showSaveDialogSync env = Some path →
  path ≠ "" →
  let name := defaultExportName (displayFileName a) in
  let a0 := fst (Renderer.step marked_parse (Receive MenuExportHtml) a) in
  snd (Renderer.step marked_parse (Receive MenuExportHtml) a)
    = [SaveFileRequest (htmlMarkup a) name] ∧
  (isSaving (saveStatus a) = false →
   Renderer.step marked_parse ClickExport a
   = Renderer.step marked_parse (Receive MenuExportHtml) a) ∧
  dispatch (Message env (webContents window) (SaveFileRequest (htmlMarkup a) name)) s =
    (tt, defer (SaveFileDone window path) s,
     [ShowSaveDialogSync window name; WriteFile path (htmlMarkup a)]) ∧
  (∀ s' i data,
     pending s' !! i = Some (SaveFileDone window path) →
     window ∈ allWindows s' →
     ∃ status,
       effectsOf (dispatch (Completed i None data) s') =
         [Send window (SaveStatus status (Some (path, Path.basename path)))] ∧
       let a' := fst (Renderer.step marked_parse
                        (Receive (SaveStatus status (Some (path, Path.basename path)))) a0) in
       fileName a' = Some path ∧
       displayFileName a' = Path.basename path ∧
       snd (Renderer.step marked_parse (Receive MenuSaveFile) a')
         = [OverwriteFileRequest (markedText a) path] ∧
       (isSaving (saveStatus a') = false →
        snd (Renderer.step marked_parse ClickSave a')
          = [OverwriteFileRequest (markedText a) path])).
Proof.
  intros Hw Hd Hp name a0.
  destruct (step_export marked_parse a) as [Hmenu Hbutton].
  assert (Ha0 : markedText a0 = markedText a) by (unfold a0; by rewrite Hmenu).
  split; [by rewrite Hmenu|]. split; [intros Hs; by rewrite Hmenu, Hbutton|]. split.
  - unfold dispatch. rewrite (ipcMain_on_save _ _ _ window) by assumption.
    rewrite Hd. destruct path; [contradiction | reflexivity].
  - intros s' i data Hk Ha.
    exists ("File successfully saved as " +:+ dquote +:+ Path.basename path +:+ dquote).
    split.
    { rewrite (dispatch_completed _ _ _ _ _ Hk). unfold runCallback.
      by rewrite saveFileDone_alive. }
    intros a'.
    destruct (step_saved marked_parse
                ("File successfully saved as " +:+ dquote +:+ Path.basename path +:+ dquote)
                path (Path.basename path) a0 Hp) as (Hf & Hn & Hm).
    split; [exact Hf|]. split; [exact Hn|].
    destruct (step_save marked_parse a') as [Hsm Hsb].
    assert (Hsave : snd (saveFileDialog a') = [OverwriteFileRequest (markedText a) path]).
    { rewrite (saveFileDialog_bound a' path Hf Hp). unfold a'. by rewrite Hm, Ha0. }
    split; [by rewrite Hsm|]. intros Hs. by rewrite Hsb.
Qed.

Lemma export_rebinds_document_witness :
  let a := fst (Renderer.step render (Typing "# a") (fst (mount render))) in
  snd (Renderer.step render ClickExport a) = [SaveFileRequest (render "# a") "Untitled.html"] ∧
  dispatch (Message picks (webContents 1) (SaveFileRequest (render "# a") "Untitled.html")) ready =
    (tt, defer (SaveFileDone 1 "/home/u/b.md") ready,
     [ShowSaveDialogSync 1 "Untitled.html"; WriteFile "/home/u/b.md" (render "# a")]).
Proof.
  intros a.
  assert (Hw : fromWebContents ready (webContents 1) = Some 1%positive)
    by (vm_compute; reflexivity).
  assert (Hp : "/home/u/b.md" ≠ "") by discriminate.
  destruct (export_rebinds_document render picks ready 1 a "/home/u/b.md" Hw eq_refl Hp)
    as (H1 & Hb & H2 & _).
  split; [rewrite Hb by (vm_compute; reflexivity); exact H1 | exact H2].
Defined.

Lemma prefix_before_quote (needle s : string) :
  Forall (fun c => c ≠ ascii_of_nat 34) (list_ascii_of_string needle) →
  String.prefix needle (s +:+ dquote) = String.prefix needle s.
Proof.
  revert s. induction needle as [|c needle IH]; intros s Hq.
  - by destruct s.
  - inversion Hq as [|? ? Hc Hrest]; subst. destruct s as [|x s]; simpl.
    + destruct (Ascii.ascii_dec c (ascii_of_nat 34)) as [->|_]; [contradiction | reflexivity].
    + destruct (Ascii.ascii_dec c x); [by apply IH | reflexivity].
Qed.

Lemma includes_before_quote (needle s : string) :
  needle ≠ "" →
  Forall (fun c => c ≠ ascii_of_nat 34) (list_ascii_of_string needle) →
  includes needle (s +:+ dquote) = includes needle s.
Proof.
  intros Hne Hq. induction s as [|x s IH].
  - destruct needle as [|c needle]; [contradiction|].
    inversion Hq as [|? ? Hc Hrest]; subst. simpl.
    destruct (Ascii.ascii_dec c (ascii_of_nat 34)) as [->|_]; [contradiction|].
    by destruct needle.
  - change (String x s +:+ dquote) with (String x (s +:+ dquote)).
    change (includes needle (String x (s +:+ dquote)))
      with (String.prefix needle (String x (s +:+ dquote)) || includes needle (s +:+ dquote)).
    change (includes needle (String x s))
      with (String.prefix needle (String x s) || includes needle s).
    rewrite IH.
    change (String x (s +:+ dquote)) with (String x s +:+ dquote).
    by rewrite prefix_before_quote.
Qed.

Lemma prefix_app (needle pre s : string) :
  String.prefix needle pre = true → String.prefix needle (pre +:+ s) = true.
Proof.
  revert pre. induction needle as [|c needle IH]; intros pre H.
  - by destruct (pre +:+ s).
  - destruct pre as [|x pre]; [discriminate H|].
    change (String x pre +:+ s) with (String x (pre +:+ s)). simpl in *.
    destruct (Ascii.ascii_dec c x); [by apply IH | discriminate H].
Qed.

Lemma includes_app_l (needle pre s : string) :
  includes needle pre = true → includes needle (pre +:+ s) = true.
Proof.
  induction pre as [|x pre IH]; intros H.
  - simpl in H. rewrite orb_false_r in H.
    destruct needle; [by destruct ("" +:+ s) | discriminate H].
  - change (String x pre +:+ s) with (String x (pre +:+ s)).
    change (String.prefix needle (String x (pre +:+ s)) || includes needle (pre +:+ s) = true).
    change (String.prefix needle (String x pre) || includes needle pre = true) in H.
    apply orb_true_iff in H as [H|H]; apply orb_true_iff.
    + left. by apply (prefix_app needle (String x pre) s).
    + right. by apply IH.
Qed.

Lemma includes_skip (c : ascii) (needle pre s : string) :
  Forall (fun x => x ≠ c) (list_ascii_of_string pre) →
  includes (String c needle) (pre +:+ s) = includes (String c needle) s.
Proof.
  induction pre as [|x pre IH]; intros H; [reflexivity|].
  inversion H as [|? ? Hx Hrest]; subst.
  change (String x pre +:+ s) with (String x (pre +:+ s)).
  change (includes (String c needle) (String x (pre +:+ s)))
    with (String.prefix (String c needle) (String x (pre +:+ s))
          || includes (String c needle) (pre +:+ s)).
  rewrite IH by assumption. simpl.
  destruct (Ascii.ascii_dec c x) as [->|_]; [contradiction | reflexivity].
Qed.

(** The style of the line for a success text around the base name [name]. *)
Lemma success_style (verb name : string) :
  Forall (fun x => x ≠ "E"%char) (list_ascii_of_string ("File successfully saved " +:+ verb)) →
  statusClass (Some (("File successfully saved " +:+ verb) +:+ dquote +:+ name +:+ dquote))
  = (if includes "Error" name then red else green).
Proof.
  intros Hverb.
  assert (He : includes "Error"
                 (("File successfully saved " +:+ verb) +:+ dquote +:+ name +:+ dquote)
               = includes "Error" name).
  { rewrite includes_skip by assumption.
    rewrite (includes_skip "E" "rror" dquote) by (repeat constructor; discriminate).
    apply includes_before_quote; [discriminate | repeat constructor; discriminate]. }
  assert (Hs : includes "successfully saved"
                 (("File successfully saved " +:+ verb) +:+ dquote +:+ name +:+ dquote)
               = true).
  { apply includes_app_l, includes_app_l. reflexivity. }
  unfold statusClass.
  change (default "" (Some ?x)) with x.
  rewrite He, Hs.
  assert (Ht : truthy (Some (("File successfully saved " +:+ verb)
                               +:+ dquote +:+ name +:+ dquote)) = true) by reflexivity.
  rewrite Ht. by destruct (includes "Error" name).
Qed.

(** X15. The status line shows every failure of a file operation in the error
    style.  It shows a successful save in the success style unless the base
    name of the saved file contains [Error]: such a save is shown in the error
    style, because the line is styled by a search for that word before the
    search for [successfully saved]. *)
Theorem status_line_style (k : Callback) (e : Error) (path : string) :
  statusClass (Some (Outcome.failureStatus k +:+ message e)) = red ∧
  statusClass (Some ("File successfully saved as " +:+ dquote +:+ Path.basename path +:+ dquote))
    = (if includes "Error" (Path.basename path) then red else green) ∧
  statusClass (Some ("File successfully saved to " +:+ dquote +:+ Path.basename path +:+ dquote))
    = (if includes "Error" (Path.basename path) then red else green) ∧
  statusClass (Some "Save As operation cancelled.") = blue.
Proof.
  split; [by destruct k|]. split; [|split; [|reflexivity]].
  - apply (success_style "as " (Path.basename path)). repeat constructor; discriminate.
  - apply (success_style "to " (Path.basename path)). repeat constructor; discriminate.
Qed.

End ExportFacts.

(** ** The listeners of a surface *)
Section ListenerFacts.
Import Ipc Renderer Listeners Samples.

Lemma cleanup_detached (t : gmap string (list Listener)) : detached (cleanup t).
Proof.
  unfold detached, cleanup, removeFileListeners, removeAllListeners.
  repeat split; by simplify_map_eq.
Qed.

Lemma attach_detached (a : App) (t : gmap string (list Listener)) :
  detached t → attachedBy a (attach a t).
Proof.
  intros (H1 & H2 & H3 & H4 & H5).
  unfold attachedBy, attach, onMenuExportHtml, onMenuSaveFile, onMenuOpenFile,
    onSaveStatus, onFileContentReady, on.
  repeat split; simplify_map_eq; by rewrite ?H1, ?H2, ?H3, ?H4, ?H5.
Qed.

Lemma rerun_attached (b a a' : App) (t : gmap string (list Listener)) :
  agrees b a → attachedBy b t →
  ∃ b', agrees b' a' ∧ attachedBy b' (rerun a a' t).
Proof.
  intros (Hm & Hf & Hd & Hh) Ht. unfold rerun, sameCallbacks.
  case_bool_decide as Hs.
  - exists b. destruct Hs as (Hm' & Hf' & Hd' & Hh').
    split; [|exact Ht]. repeat split; congruence.
  - exists a'. split; [by repeat split|].
    apply attach_detached, cleanup_detached.
Qed.

Lemma reachable_attached (marked_parse : string → string)
    (st : App * gmap string (list Listener)) :
  Listeners.reachable marked_parse st →
  ∃ b, agrees b (fst st) ∧ attachedBy b (snd st).
Proof.
  induction 1 as [|[a t] act _ (b & Hb & Ht)].
  - unfold mounted. simpl.
    apply (rerun_attached initial); [by repeat split|].
    apply attach_detached. by repeat split.
  - simpl in Hb, Ht. unfold Listeners.step.
    destruct (match act with Receive m => deliver t m a | _ => handle act a end)
      as [a1 out1].
    destruct (effects marked_parse a a1) as [a2 out2]. simpl.
    destruct (rerun_attached b a a1 t Hb Ht) as (b1 & Hb1 & Ht1).
    by apply (rerun_attached b1).
Qed.

Lemma saveFileDialog_agrees (b a : App) :
  agrees b a →
  saveFileDialog a = (setSaveStatus (Some "Saving...") a, snd (saveFileDialog b)).
Proof.
  intros (Hm & Hf & Hd & _). unfold saveFileDialog. rewrite Hm, Hf, Hd.
  by destruct (fileName a) as [[|c p]|].
Qed.

Lemma exportHtmlDialog_agrees (b a : App) :
  agrees b a →
  exportHtmlDialog a = (setSaveStatus (Some "Exporting HTML...") a, snd (exportHtmlDialog b)).
Proof.
  intros (_ & _ & Hd & Hh). unfold exportHtmlDialog. simpl. by rewrite Hd, Hh.
Qed.

Lemma deliver_handle (marked_parse : string → string)
    (st : App * gmap string (list Listener)) (m : Incoming) :
  Listeners.reachable marked_parse st →
  (∃ l, snd st !! channel m = Some [l]) ∧
  deliver (snd st) m (fst st) = handle (Receive m) (fst st).
Proof.
  intros Hr. destruct (reachable_attached marked_parse st Hr) as (b & Hb & Ht).
  destruct st as [a t]. simpl in *.
  destruct Ht as (H1 & H2 & H3 & H4 & H5).
  destruct m as [content name path|status saved| | |]; unfold deliver; simpl.
  - rewrite H1. split; [by eexists | reflexivity].
  - rewrite H2. split; [by eexists | reflexivity].
  - rewrite H3. split; [by eexists | reflexivity].
  - rewrite H4. split; [by eexists|]. simpl. by rewrite (saveFileDialog_agrees b a Hb).
  - rewrite H5. split; [by eexists|]. simpl. by rewrite (exportHtmlDialog_agrees b a Hb).
Qed.

Lemma step_table (marked_parse : string → string)
    (st : App * gmap string (list Listener)) (act : Action) :
  Listeners.reachable marked_parse st →
  (fst (fst (Listeners.step marked_parse act st)), snd (Listeners.step marked_parse act st))
  = Renderer.step marked_parse act (fst st).
Proof.
  intros Hr.
  assert (Hh : match act with
               | Receive m => deliver (snd st) m (fst st)
               | _ => handle act (fst st)
               end = handle act (fst st)).
  { destruct act; try reflexivity. by apply (deliver_handle marked_parse). }
  destruct st as [a t]. simpl in *. unfold Listeners.step, Renderer.step.
  rewrite Hh. by destruct (handle act a) as [a1 out1].
Qed.

(** X16. At every state of a surface each of the five channels has exactly one
    listener, however often the effect that attaches them has run, and the
    listeners of the two menu commands are those of a render with the current
    text, path, display name and preview.  So a message of the main process is
    handled once and on the current state, and an action changes the document
    and sends the requests that its handler alone accounts for. *)
Theorem listeners_are_single_and_current (marked_parse : string → string)
    (st : App * gmap string (list Listener)) :
  Listeners.reachable marked_parse st →
  (∀ m, ∃ l, snd st !! channel m = Some [l]) ∧
  (∀ m, deliver (snd st) m (fst st) = handle (Receive m) (fst st)) ∧
  (∀ act,
     (fst (fst (Listeners.step marked_parse act st)), snd (Listeners.step marked_parse act st))
     = Renderer.step marked_parse act (fst st)).
Proof.
  intros Hr. split; [|split].
  - intros m. by apply (deliver_handle marked_parse).
  - intros m. by apply (deliver_handle marked_parse).
  - intros act. by apply step_table.
Qed.

Lemma listeners_are_single_and_current_witness :
  let st := fst (Listeners.step render (Receive MenuSaveFile)
                   (fst (Listeners.step render (Typing "# a") (mounted render)))) in
  deliver (snd st) MenuSaveFile (fst st) = handle (Receive MenuSaveFile) (fst st).
Proof.
  intros st.
  destruct (listeners_are_single_and_current render st) as (_ & H & _); [|exact (H _)].
  repeat constructor.
Defined.

Lemma rerun_same (a : App) (t : gmap string (list Listener)) : rerun a a t = t.
Proof. unfold rerun, sameCallbacks. by rewrite bool_decide_eq_true_2. Qed.

(** X17. Once the application is ready, a menu command reaches the focused window
    only, and is dropped when no window has the focus; the main process changes
    nothing of its own.  In the surface that receives it, the command does
    exactly what the button of the same name does when that button is enabled:
    the same new state, the same listeners, the same requests.  While a save is
    shown as in progress the button is disabled and a click on it does nothing;
    the menu command is carried out all the same. *)
Theorem menu_command_is_the_button (marked_parse : string → string)
    (st : App * gmap string (list Listener)) (item : Main.MenuItem)
    (focusedWindow : option positive) (s : Main.State) :
  Listeners.reachable marked_parse st →
  (Main.isReady s = true →
   (∀ w, focusedWindow = Some w → w ∈ Main.allWindows s) →
   Main.dispatch (Main.MenuClick item focusedWindow) s =
     (tt, s, match focusedWindow with
             | Some w => [Main.Send w (Main.menuMessage item)]
             | None => []
             end)) ∧
  (Main.isReady s = false →
   Main.dispatch (Main.MenuClick item focusedWindow) s = (tt, s, [])) ∧
  (isSaving (saveStatus (fst st)) = false →
   Listeners.step marked_parse (Receive (Main.menuMessage item)) st
   = Listeners.step marked_parse (button item) st) ∧
  (isSaving (saveStatus (fst st)) = true →
   Listeners.step marked_parse (button item) st = (st, []) ∧
   snd (Listeners.step marked_parse (Receive (Main.menuMessage item)) st)
   = snd (handle (Receive (Main.menuMessage item)) (fst st))).
Proof.
  intros Hr.
  pose proof (deliver_handle marked_parse st (Main.menuMessage item) Hr) as [_ Hd].
  split; [|split; [|split]].
  - intros Hready Hfocus. unfold Main.dispatch. rewrite Hready.
    destruct focusedWindow as [w|]; [|reflexivity].
    simpl. apply send_alive. by apply Hfocus.
  - intros Hready. unfold Main.dispatch. by rewrite Hready.
  - intros Hs. destruct st as [a t]. simpl in Hd, Hs. unfold Listeners.step.
    rewrite Hd. destruct item; simpl; by rewrite onClick_enabled.
  - intros Hs. destruct st as [a t]. cbn [fst snd] in Hd, Hs |- *. split.
    + unfold Listeners.step.
      assert (Hb : handle (button item) a = (a, []))
        by (destruct item; simpl; by apply onClick_disabled).
      replace (match button item with
               | Receive m => deliver t m a
               | _ => handle (button item) a
               end) with (a, @nil Request) by (by destruct item).
      unfold effects. rewrite !decide_True by reflexivity.
      by rewrite !rerun_same.
    + unfold Listeners.step. rewrite Hd.
      destruct (handle (Receive (Main.menuMessage item)) a) as [a1 out1] eqn:Hh.
      assert (Hdn : displayFileName a1 = displayFileName a).
      { destruct item; simpl in Hh; try (injection Hh as <- _; reflexivity).
        pose proof (saveFileDialog_fst a) as Hf. rewrite Hh in Hf. simpl in Hf.
        by rewrite Hf. }
      assert (He : snd (effects marked_parse a a1) = []).
      { unfold effects. simpl. by rewrite decide_True by (by rewrite Hdn). }
      destruct (effects marked_parse a a1) as [a2 out2]. simpl in He. subst out2.
      simpl. apply app_nil_r.
Qed.

Lemma menu_command_is_the_button_witness :
  let st := fst (Listeners.step render (Typing "# a") (mounted render)) in
  Listeners.step render (Receive MenuSaveFile) st = Listeners.step render ClickSave st.
Proof.
  intros st.
  destruct (menu_command_is_the_button render st Main.SaveFileItem (Some 1%positive)
              Samples.ready) as (_ & _ & H & _); [|apply H; vm_compute; reflexivity].
  repeat constructor.
Defined.

End ListenerFacts.

(** ** What an action of a surface sends *)
Section SurfaceRequests.
Import Ipc Renderer View Samples.

(** X18. On a surface whose preview is the rendering of its text, the arrival of
    an opened file replaces the document at once, whatever it held and without
    a question: the text is the content of the file, the preview its
    rendering, the path and the display name are those of the message, and the
    status line names the file. *)
Theorem opened_file_replaces_document (marked_parse : string → string) (a : App)
    (content name path : string) :
  htmlMarkup a = marked_parse (markedText a) →
  fst (Renderer.step marked_parse (Receive (FileContentReady content name path)) a)
  = mkApp content (marked_parse content) (Some path) name
          (Some ("File " +:+ dquote +:+ name +:+ dquote +:+ " loaded.")) ∧
  titles (snd (Renderer.step marked_parse (Receive (FileContentReady content name path)) a))
  = (if decide (displayFileName a = name) then [] else [name +:+ " - Markdown Editor"]).
Proof.
  intros Ha. split.
  - pose proof (step_rendered marked_parse
                  (Receive (FileContentReady content name path)) a Ha) as Hh.
    assert (Hf : ∀ x,
      x = fst (Renderer.step marked_parse (Receive (FileContentReady content name path)) a) →
      markedText x = content ∧ fileName x = Some path ∧ displayFileName x = name ∧
      saveStatus x = Some ("File " +:+ dquote +:+ name +:+ dquote +:+ " loaded.")).
    { intros x ->. unfold Renderer.step, handle, effects. simpl. by case_decide. }
    destruct (fst (Renderer.step marked_parse (Receive (FileContentReady content name path)) a))
      as [mt hm fn dn st].
    destruct (Hf _ eq_refl) as (Hm & Hn & Hd & Hs). simpl in *. by subst.
  - unfold Renderer.step, handle, effects. simpl. by case_decide.
Qed.

Lemma opened_file_replaces_document_witness :
  let a := fst (Renderer.step render (Typing "unsaved text") (fst (mount render))) in
  fst (Renderer.step render (Receive (FileContentReady "# a" "a.md" "/home/u/a.md")) a)
  = mkApp "# a" (render "# a") (Some "/home/u/a.md") "a.md"
          (Some ("File " +:+ dquote +:+ "a.md" +:+ dquote +:+ " loaded.")).
Proof.
  intros a.
  destruct (opened_file_replaces_document render a "# a" "a.md" "/home/u/a.md") as [H _];
    [|exact H].
  vm_compute. reflexivity.
Defined.

(** X19. A surface asks the main process for a file operation only on a command
    of the user: a save-as or an overwrite request comes from the save or the
    export command alone, button or menu, and an open request from the open
    command alone.  Typing, New Document and the arrival of a file or of a
    status send nothing but, when the display name changed, the new title. *)
Theorem requests_come_from_commands (marked_parse : string → string) (act : Action)
    (a : App) (r : Request) :
  r ∈ snd (Renderer.step marked_parse act a) →
  match r with
  | SaveFileRequest _ _ | OverwriteFileRequest _ _ =>
      act = ClickSave ∨ act = Receive MenuSaveFile ∨
      act = ClickExport ∨ act = Receive MenuExportHtml
  | OpenFileDialog => act = ClickOpen ∨ act = Receive MenuOpenFile
  | NewWindowRequest => act = ClickNewWindow
  | UpdateWindowTitle title =>
      title = displayFileName (fst (Renderer.step marked_parse act a)) +:+ " - Markdown Editor"
      ∧ displayFileName (fst (Renderer.step marked_parse act a)) ≠ displayFileName a
  end.
Proof.
  intros Hin. unfold Renderer.step in *.
  destruct (handle act a) as [a1 out1] eqn:Hh. unfold effects in *. simpl in *.
  apply elem_of_app in Hin as [Hin|Hin].
  - assert (Hsave : ∀ b out, saveFileDialog a = (b, out) → r ∈ out →
                      ∃ content target, r = SaveFileRequest content target ∨
                                        r = OverwriteFileRequest content target).
    { intros b out E Hr. unfold saveFileDialog in E.
      destruct (fileName a) as [[|c p]|]; injection E as <- <-;
        apply list_elem_of_singleton in Hr; eauto. }
    destruct act as [| | | | | text | m |]; simpl in Hh; unfold onClick in Hh;
      try (destruct (isSaving (saveStatus a));
           [injection Hh as <- <-; by apply elem_of_nil in Hin|]).
    + injection Hh as <- <-. apply list_elem_of_singleton in Hin. by subst r.
    + injection Hh as <- <-. apply list_elem_of_singleton in Hin. subst r. auto.
    + destruct (Hsave _ _ Hh Hin) as (? & ? & [-> | ->]); auto.
    + injection Hh as <- <-. apply list_elem_of_singleton in Hin. subst r. auto.
    + injection Hh as <- <-. by apply elem_of_nil in Hin.
    + injection Hh as <- <-. by apply elem_of_nil in Hin.
    + destruct m as [content name path|status saved| | |]; simpl in Hh.
      * injection Hh as <- <-. by apply elem_of_nil in Hin.
      * injection Hh as <- <-. by apply elem_of_nil in Hin.
      * injection Hh as <- <-. apply list_elem_of_singleton in Hin. subst r. auto.
      * destruct (Hsave _ _ Hh Hin) as (? & ? & [-> | ->]); auto.
      * injection Hh as <- <-. apply list_elem_of_singleton in Hin. subst r. auto.
    + injection Hh as <- <-. by apply elem_of_nil in Hin.
  - case_decide as Hd; [by apply elem_of_nil in Hin|].
    apply list_elem_of_singleton in Hin. subst r.
    split; [|by case_decide; simpl; congruence].
    unfold windowTitle. by case_decide.
Qed.

Lemma requests_come_from_commands_witness :
  let a := fst (Renderer.step render (Typing "# a") (fst (mount render))) in
  ClickSave = ClickSave ∨ ClickSave = Receive MenuSaveFile ∨
  ClickSave = ClickExport ∨ ClickSave = Receive MenuExportHtml.
Proof.
  intros a.
  apply (requests_come_from_commands render ClickSave a (SaveFileRequest "# a" "Untitled.md")).
  vm_compute. apply list_elem_of_singleton. reflexivity.
Defined.

End SurfaceRequests.
